(** * Tadpole: a shallow embedding of the control pipeline

    The development follows the Python sources module by module:
    [config], [motor.Motor], [motor_controller.MotorController],
    [gamepad.Gamepad], [battery_guard.BatteryGuard] and [tadpole.Tadpole].

    Numbers.  Python [int]s are [Z].  Python [float]s are idealised as real
    numbers ([R]): arithmetic is exact, binary64 rounding, signed zeros,
    infinities and NaN are not modelled.  The concrete inputs used below are
    either exactly representable in binary64 (such as 180, 90 or 32768) or
    far away from every comparison threshold, so the idealisation decides none
    of the evaluations.

    Threads.  The three threads are modelled as an interleaving of atomic
    steps over one shared state (module [Tadpole]); the coordinator's steps
    are the statements of [Tadpole.run]. *)

From Stdlib Require Import Reals Lra Lia ZArith List Bool Psatz.
From Stdlib Require String.
Import ListNotations.
Open Scope R_scope.

(** ** Python preliminaries *)

Module Py.

(** The exceptions the modelled code can raise. *)
Inductive exn : Type :=
| ValueError
| TypeError
| KeyError
| ZeroDivisionError.

(** The outcome of a call: a value, or a raised exception. *)
Inductive outcome (A : Type) : Type :=
| Ok (a : A)
| Raise (e : exn).
Arguments Ok {A} a.
Arguments Raise {A} e.

Definition bind {A B : Type} (m : outcome A) (k : A -> outcome B) : outcome B :=
  match m with
  | Ok a => k a
  | Raise e => Raise e
  end.

(** Comparisons of reals as booleans, as Python's [<] and [<=]. *)
Definition ltb (x y : R) : bool := if Rlt_dec x y then true else false.
Definition leb (x y : R) : bool := if Rle_dec x y then true else false.

(** [round(x)] without [ndigits]: the nearest integer, ties to even. *)
Definition round (x : R) : Z :=
  let f := Zfloor x in
  let r := x - IZR f in
  if ltb r (1 / 2) then f
  else if ltb (1 / 2) r then (f + 1)%Z
  else if Z.even f then f else (f + 1)%Z.

(** [math.copysign(x, y)]: the magnitude of [x] with the sign of [y]
    (a zero [y] counts as positive). *)
Definition copysign (x y : R) : R :=
  if ltb y 0 then - Rabs x else Rabs x.

(** [math.atan2(y, x)], in radians, in (-pi, pi]. *)
Definition atan2 (y x : R) : R :=
  if ltb 0 x then atan (y / x)
  else if ltb x 0 then
    if ltb y 0 then atan (y / x) - PI else atan (y / x) + PI
  else if ltb 0 y then PI / 2
  else if ltb y 0 then - (PI / 2)
  else 0.

(** [math.degrees(r)]. *)
Definition degrees (r : R) : R := r * (180 / PI).

(** [math.sqrt]. *)
Definition sqrt (x : R) : R := R_sqrt.sqrt x.

End Py.

Notation "x <? y" := (Py.ltb x y) : R_scope.
Notation "x <=? y" := (Py.leb x y) : R_scope.
Notation "m >>= k" := (Py.bind m k) (at level 50, left associativity).

(** ** config.py *)

Module config.
Definition BATTERY_SENSE_PIN_GPIO : Z := 5.
Definition LOW_BATTERY_TIMEOUT : R := 5.
Definition BATTERY_CHECK_PERIOD : R := 1.
End config.

(** ** motor.py: one motor behind an H-bridge *)

Module Motor.

(** The two PWM channels are represented by their current duty cycles. *)
Record t : Type := mk {
  gpio_positive : Z;
  gpio_negative : Z;
  is_reversed : bool;
  throttle : R;
  pwm_positive : Z;
  pwm_negative : Z
}.

(** [Motor.__init__]: throttle 0, both channels started at duty cycle 0. *)
Definition init (gpio_pos gpio_neg : Z) (reversed : bool) : t :=
  mk gpio_pos gpio_neg reversed 0 0 0.

(** [Motor.change_throttle]. *)
Definition change_throttle (m : t) (thr : R) : t :=
  let thr := if is_reversed m then thr * -1 else thr in
  let abs_duty_cycle := Py.round (Rabs thr * 100) in
  if 0 <=? thr
  then mk (gpio_positive m) (gpio_negative m) (is_reversed m) thr abs_duty_cycle 0
  else mk (gpio_positive m) (gpio_negative m) (is_reversed m) thr 0 abs_duty_cycle.

(** [Motor.stop]: both duty cycles to 0; the [throttle] field is left. *)
Definition stop (m : t) : t :=
  mk (gpio_positive m) (gpio_negative m) (is_reversed m) (throttle m) 0 0.

(** Both channels are off. *)
Definition stopped (m : t) : Prop := pwm_positive m = 0%Z /\ pwm_negative m = 0%Z.

End Motor.

(** ** motor_controller.py: the throttle shaper *)

Module MotorController.

Definition LEFT_MOTOR_POSITIVE_GPIO : Z := 13.
Definition LEFT_MOTOR_NEGATIVE_GPIO : Z := 6.
Definition RIGHT_MOTOR_POSITIVE_GPIO : Z := 26.
Definition RIGHT_MOTOR_NEGATIVE_GPIO : Z := 19.

Definition MAX_ABS_AXIS_VALUE : Z := 2 ^ 15.

(** [throttle_gate_threshold] and [throttle_limit] may be [None], which
    switches the stage off. *)
Record t : Type := mk {
  left_motor : Motor.t;
  right_motor : Motor.t;
  enable_throttle_curve : bool;
  throttle_gate_threshold : option R;
  throttle_scale : R;
  throttle_limit : option R
}.

(** [MotorController.__init__]. *)
Definition init (curve : bool) (gate : option R) (scale : R) (limit : option R) : t :=
  mk (Motor.init LEFT_MOTOR_POSITIVE_GPIO LEFT_MOTOR_NEGATIVE_GPIO true)
     (Motor.init RIGHT_MOTOR_POSITIVE_GPIO RIGHT_MOTOR_NEGATIVE_GPIO false)
     curve gate scale limit.

(** The constructor's defaults: [MotorController()]. *)
Definition default : t := init false (Some (1 / 10)) 1 (Some 1).

(** [_assert_angle_within_range]. *)
Definition _assert_angle_within_range (angle : R) : Py.outcome unit :=
  if (angle <=? -180) || (180 <? angle) then Py.Raise Py.ValueError
  else Py.Ok tt.

(** [calc_left_throttle_mod]; a fall through the four bands returns [None]. *)
Definition calc_left_throttle_mod (joystick_angle : R) : Py.outcome (option R) :=
  _assert_angle_within_range joystick_angle >>= fun _ =>
  Py.Ok
    (if (-180 <? joystick_angle) && (joystick_angle <=? -90) then Some (-1)
     else if (-90 <? joystick_angle) && (joystick_angle <? 0)
          then Some (joystick_angle / 45 + 1)
     else if (0 <=? joystick_angle) && (joystick_angle <=? 90) then Some 1
     else if (90 <? joystick_angle) && (joystick_angle <=? 180)
          then Some (- joystick_angle / 45 + 3)
     else None).

(** [calc_right_throttle_mod]. *)
Definition calc_right_throttle_mod (joystick_angle : R) : Py.outcome (option R) :=
  _assert_angle_within_range joystick_angle >>= fun _ =>
  Py.Ok
    (if (-180 <? joystick_angle) && (joystick_angle <? -90)
     then Some (- joystick_angle / 45 - 3)
     else if (-90 <=? joystick_angle) && (joystick_angle <=? 0) then Some (-1)
     else if (0 <? joystick_angle) && (joystick_angle <? 90)
          then Some (joystick_angle / 45 - 1)
     else if (90 <=? joystick_angle) && (joystick_angle <=? 180) then Some 1
     else None).

(** [calc_normalized_vector_length]. *)
Definition calc_normalized_vector_length (input_vector : Z * Z) : R :=
  let length := Py.sqrt (IZR (fst input_vector ^ 2 + snd input_vector ^ 2)) in
  let normalized_length := length / IZR MAX_ABS_AXIS_VALUE in
  if 1 <? normalized_length then 1 else normalized_length.

(** [calc_vector_angle]. *)
Definition calc_vector_angle (input_vector : Z * Z) : R :=
  let radians := Py.atan2 (IZR (snd input_vector)) (IZR (fst input_vector)) in
  Py.degrees radians.

(** The cubic of [_apply_throttle_curve], before the range test. *)
Definition throttle_curve_poly (throttle_modifier : R) : R :=
  let a := 0 in
  let b := 1666667 / 10000000 in
  let c := 1722222 / 1000000 in
  let d := 5555556 / 10000000 in
  a - b * throttle_modifier + c * throttle_modifier ^ 2 - d * throttle_modifier ^ 3.

(** [_apply_throttle_curve]. *)
Definition _apply_throttle_curve (throttle_modifier : R) : R :=
  let new_throttle_modifier := throttle_curve_poly throttle_modifier in
  if negb ((0 <=? new_throttle_modifier) && (new_throttle_modifier <=? 1))
  then IZR (Py.round new_throttle_modifier)
  else new_throttle_modifier.

(** [_apply_throttle_gate], with the threshold read from [self]. *)
Definition _apply_throttle_gate (threshold : R) (input_throttle : R) : R :=
  if Rabs input_throttle <? threshold then 0 else input_throttle.

(** [_apply_throttle_limiting], with the limit read from [self]. *)
Definition _apply_throttle_limiting (limit : R) (input_throttle : R) : R :=
  if limit <? Rabs input_throttle then Py.copysign limit input_throttle
  else input_throttle.

(** Lines 69-84 of [handle_vector_input]: the pair
    [(left_motor_throttle, right_motor_throttle)] handed to the motors.
    Multiplying by a [None] modifier raises [TypeError]. *)
Definition shaped_throttles (self : t) (input_vector : Z * Z) : Py.outcome (R * R) :=
  let angle := calc_vector_angle input_vector in
  calc_left_throttle_mod angle >>= fun left_motor_throttle_modifier =>
  calc_right_throttle_mod angle >>= fun right_motor_throttle_modifier =>
  let throttle := throttle_scale self * calc_normalized_vector_length input_vector in
  let throttle :=
    if enable_throttle_curve self then _apply_throttle_curve throttle else throttle in
  let throttle :=
    match throttle_gate_threshold self with
    | Some th => _apply_throttle_gate th throttle
    | None => throttle
    end in
  let throttle :=
    match throttle_limit self with
    | Some lim => _apply_throttle_limiting lim throttle
    | None => throttle
    end in
  match left_motor_throttle_modifier, right_motor_throttle_modifier with
  | Some lm, Some rm => Py.Ok (throttle * lm, throttle * rm)
  | _, _ => Py.Raise Py.TypeError
  end.

(** [handle_vector_input]: shape, then [change_throttle] on both motors. *)
Definition handle_vector_input (self : t) (input_vector : Z * Z) : Py.outcome t :=
  shaped_throttles self input_vector >>= fun lr =>
  Py.Ok (mk (Motor.change_throttle (left_motor self) (fst lr))
            (Motor.change_throttle (right_motor self) (snd lr))
            (enable_throttle_curve self) (throttle_gate_threshold self)
            (throttle_scale self) (throttle_limit self)).

(** [stop]: stops both motors. *)
Definition stop (self : t) : t :=
  mk (Motor.stop (left_motor self)) (Motor.stop (right_motor self))
     (enable_throttle_curve self) (throttle_gate_threshold self)
     (throttle_scale self) (throttle_limit self).

End MotorController.

(** ** gamepad.py: the vector source *)

Module Gamepad.

(** An evdev input event: raw integers. *)
Record event : Type := mk_event {
  ev_type : Z;
  ev_code : Z;
  ev_value : Z
}.

Definition _TIMEOUT_INF : Z := -1.
Definition _TARGET_EVENT_TYPES : list Z := [3%Z].
Definition _EVENT_CODE_RIGHT_X_AXIS : Z := 2.
Definition _EVENT_CODE_RIGHT_Y_AXIS : Z := 5.
Definition _EVENT_CODE_LEFT_X_AXIS : Z := 0.
Definition _EVENT_CODE_LEFT_Y_AXIS : Z := 1.
Definition _TARGET_EVENT_CODES : list Z :=
  [_EVENT_CODE_RIGHT_X_AXIS; _EVENT_CODE_RIGHT_Y_AXIS].

(** Python's [x in xs] on lists of integers. *)
Definition mem (x : Z) (xs : list Z) : bool := existsb (Z.eqb x) xs.

(** The dict [last_event_values], from event code to value; a later binding
    of a key shadows an earlier one. *)
Definition dict : Type := list (Z * Z).

Fixpoint dict_get (d : dict) (k : Z) : option Z :=
  match d with
  | [] => None
  | (k', v) :: d' => if Z.eqb k k' then Some v else dict_get d' k
  end.

Fixpoint dict_set (d : dict) (k v : Z) : dict :=
  match d with
  | [] => [(k, v)]
  | (k', v') :: d' =>
      if Z.eqb k k' then (k, v) :: d' else (k', v') :: dict_set d' k v
  end.

(** The fields of a [Gamepad], the FIFO [_xy_vector_queue] (oldest first),
    and [received_event_count], the local counter of [run]. *)
Record t : Type := mk {
  timeout_connection : Z;
  _xy_vector_queue : list (Z * Z);
  last_event_values : dict;
  invert_x : bool;
  invert_y : bool;
  accept_every_nth_event : Z;
  received_event_count : Z
}.

(** [Gamepad.__init__] (the device is acquired outside the model). *)
Definition init (timeout : Z) (nth : Z) (inv_x inv_y : bool) : Py.outcome t :=
  if negb (Z.eqb timeout _TIMEOUT_INF || Z.ltb 0 timeout)
  then Py.Raise Py.ValueError
  else Py.Ok (mk timeout []
                 (fold_left (fun d code => dict_set d code 0) _TARGET_EVENT_CODES [])
                 inv_x inv_y nth 0).

(** [_create_xy_vector]; subscripting a missing key raises [KeyError]. *)
Definition _create_xy_vector (self : t) : Py.outcome (Z * Z) :=
  match dict_get (last_event_values self) _EVENT_CODE_RIGHT_X_AXIS,
        dict_get (last_event_values self) _EVENT_CODE_RIGHT_Y_AXIS with
  | Some x, Some y => Py.Ok (x, y)
  | _, _ => Py.Raise Py.KeyError
  end.

(** The test of [run] on an event, once the counter has been advanced. *)
Definition accepts (self : t) (count : Z) (ev : event) : bool :=
  Z.eqb (count mod accept_every_nth_event self) 0
  && mem (ev_type ev) _TARGET_EVENT_TYPES
  && mem (ev_code ev) _TARGET_EVENT_CODES.

(** The body of the [for event in read_loop()] loop of [run].  The modulo
    is evaluated first, so a zero [accept_every_nth_event] raises. *)
Definition handle_event (self : t) (ev : event) : Py.outcome t :=
  let count := (received_event_count self + 1)%Z in
  if Z.eqb (accept_every_nth_event self) 0 then Py.Raise Py.ZeroDivisionError
  else if accepts self count ev then
    let values := dict_set (last_event_values self) (ev_code ev) (ev_value ev - 2 ^ 15) in
    let self' := mk (timeout_connection self) (_xy_vector_queue self) values
                    (invert_x self) (invert_y self)
                    (accept_every_nth_event self) count in
    _create_xy_vector self' >>= fun v =>
    Py.Ok (mk (timeout_connection self) (_xy_vector_queue self ++ [v]) values
              (invert_x self) (invert_y self)
              (accept_every_nth_event self) count)
  else
    Py.Ok (mk (timeout_connection self) (_xy_vector_queue self) (last_event_values self)
              (invert_x self) (invert_y self)
              (accept_every_nth_event self) count).

(** [run] on the events delivered by the device, in order.  A reconnection
    after an [OSError] keeps the counter, so the events of successive
    connections simply follow each other. *)
Fixpoint run (self : t) (events : list event) : Py.outcome t :=
  match events with
  | [] => Py.Ok self
  | ev :: rest => handle_event self ev >>= fun self' => run self' rest
  end.

(** [get_xy_vector_from_queue(block)].  The outer [None] is a call that
    does not return (a blocking read of an empty queue); the inner option
    is Python's [None] for an empty queue. *)
Definition get_xy_vector_from_queue (self : t) (block : bool)
  : option (option (Z * Z) * t) :=
  match _xy_vector_queue self with
  | [] => if block then None else Some (None, self)
  | vector :: rest =>
      let x := if invert_x self then (fst vector * -1)%Z else fst vector in
      let y := if invert_y self then (snd vector * -1)%Z else snd vector in
      Some (Some (x, y),
            mk (timeout_connection self) rest (last_event_values self)
               (invert_x self) (invert_y self)
               (accept_every_nth_event self) (received_event_count self))
  end.

End Gamepad.

(** ** battery_guard.py: the safety monitor *)

Module BatteryGuard.

Record t : Type := mk {
  is_battery_ok : bool;
  _last_ok_time : R;
  _last_battery_state : Z
}.

(** [BatteryGuard.__init__], constructed at time [now]. *)
Definition init (now : R) : t := mk false now 0.

(** One iteration of the loop of [run]: [reading] is the value of
    [GPIO.input], [now] the value of [time.time()], [timeout] the value of
    [config.LOW_BATTERY_TIMEOUT]. *)
Definition sample (timeout : R) (self : t) (reading : Z) (now : R) : t :=
  if Z.eqb reading 1 then mk true now reading
  else if Z.eqb reading 0 && (timeout <? now - _last_ok_time self)
  then mk false (_last_ok_time self) reading
  else mk (is_battery_ok self) (_last_ok_time self) reading.

(** The loop of [run] over a list of [(reading, now)] samples. *)
Definition run (timeout : R) (self : t) (samples : list (Z * R)) : t :=
  fold_left (fun g s => sample timeout g (fst s) (snd s)) samples self.

End BatteryGuard.

(** ** tadpole.py: the drive coordinator and the three activities together *)

Module Tadpole.

(** Where the thread of [Tadpole.run] stands: before one of the statements
    of the loop (numbered by source line), or dead after an exception. *)
Inductive pc : Type :=
| AtCheck                  (* line 35: [if not is_battery_ok] *)
| AtStop                   (* line 36: [motor_ctrl.stop()] *)
| AtStandbyCheck           (* line 38: [while not is_battery_ok] *)
| AtStandbyGet             (* line 39: blocking read, result dropped *)
| AtFetch                  (* line 41: non-blocking read *)
| AtHandle (v : Z * Z)     (* line 43: [handle_vector_input(v)] *)
| Crashed (e : Py.exn).

Inductive side : Type := Left | Right.

(** The calls that reach the two motors, oldest first. *)
Inductive motor_call : Type :=
| Stop (s : side)
| ChangeThrottle (s : side) (thr : R).

(** The objects of a [Tadpole], the position of its thread, and the log of
    motor calls made so far. *)
Record t : Type := mk {
  motor_ctrl : MotorController.t;
  xbox_pad : Gamepad.t;
  battery_guard : BatteryGuard.t;
  at_pc : pc;
  calls : list motor_call
}.

(** [Tadpole.__init__] at time [now]: default controller, a gamepad with
    the y axis inverted, a fresh battery guard. *)
Definition init (now : R) : Py.outcome t :=
  Gamepad.init Gamepad._TIMEOUT_INF 1 false true >>= fun pad =>
  Py.Ok (mk MotorController.default pad (BatteryGuard.init now) AtCheck []).

Definition set_pc (w : t) (p : pc) : t :=
  mk (motor_ctrl w) (xbox_pad w) (battery_guard w) p (calls w).

(** One atomic step of the thread of [Tadpole.run]. *)
Definition coordinator_step (w : t) : t :=
  match at_pc w with
  | AtCheck =>
      if negb (BatteryGuard.is_battery_ok (battery_guard w))
      then set_pc w AtStop else set_pc w AtFetch
  | AtStop =>
      mk (MotorController.stop (motor_ctrl w)) (xbox_pad w) (battery_guard w)
         AtStandbyCheck (calls w ++ [Stop Left; Stop Right])
  | AtStandbyCheck =>
      if negb (BatteryGuard.is_battery_ok (battery_guard w))
      then set_pc w AtStandbyGet else set_pc w AtFetch
  | AtStandbyGet =>
      match Gamepad.get_xy_vector_from_queue (xbox_pad w) true with
      | None => w
      | Some (_, pad) =>
          mk (motor_ctrl w) pad (battery_guard w) AtStandbyCheck (calls w)
      end
  | AtFetch =>
      match Gamepad.get_xy_vector_from_queue (xbox_pad w) false with
      | None => w
      | Some (None, pad) =>
          mk (motor_ctrl w) pad (battery_guard w) AtCheck (calls w)
      | Some (Some v, pad) =>
          mk (motor_ctrl w) pad (battery_guard w) (AtHandle v) (calls w)
      end
  | AtHandle v =>
      match MotorController.shaped_throttles (motor_ctrl w) v,
            MotorController.handle_vector_input (motor_ctrl w) v with
      | Py.Ok (l, r), Py.Ok ctrl =>
          mk ctrl (xbox_pad w) (battery_guard w) AtCheck
             (calls w ++ [ChangeThrottle Left l; ChangeThrottle Right r])
      | Py.Raise e, _ | _, Py.Raise e => set_pc w (Crashed e)
      end
  | Crashed _ => w
  end.

(** What can happen next: the coordinator takes a step, the battery guard
    takes a sample, or the gamepad thread receives an event. *)
Inductive action : Type :=
| Coordinator
| Monitor (reading : Z) (now : R)
| Source (ev : Gamepad.event).

(** One step of the whole system.  A gamepad thread that raised is dead
    and leaves the state as it is. *)
Definition step (w : t) (a : action) : t :=
  match a with
  | Coordinator => coordinator_step w
  | Monitor reading now =>
      mk (motor_ctrl w) (xbox_pad w)
         (BatteryGuard.sample config.LOW_BATTERY_TIMEOUT (battery_guard w) reading now)
         (at_pc w) (calls w)
  | Source ev =>
      match Gamepad.handle_event (xbox_pad w) ev with
      | Py.Ok pad => mk (motor_ctrl w) pad (battery_guard w) (at_pc w) (calls w)
      | Py.Raise _ => w
      end
  end.

(** An interleaving of the three activities. *)
Definition run (w : t) (schedule : list action) : t := fold_left step schedule w.

(** The coordinator is at its battery gate: at the check, or in standby. *)
Definition at_gate (p : pc) : bool :=
  match p with
  | AtCheck | AtStop | AtStandbyCheck | AtStandbyGet => true
  | _ => false
  end.

(** The coordinator is inside the standby loop, motors already stopped. *)
Definition in_standby (p : pc) : bool :=
  match p with
  | AtStandbyCheck | AtStandbyGet => true
  | _ => false
  end.

(** The schedule contains no sample with a positive reading. *)
Definition no_positive_reading (schedule : list action) : Prop :=
  Forall (fun a => match a with Monitor reading _ => reading <> 1%Z | _ => True end)
         schedule.

(** The number of coordinator steps in a schedule. *)
Definition coordinator_steps (schedule : list action) : nat :=
  length (filter (fun a => match a with Coordinator => true | _ => false end) schedule).

Definition is_change (c : motor_call) : bool :=
  match c with ChangeThrottle _ _ => true | Stop _ => false end.

End Tadpole.

(** ** gamepad.py: looking a device up by name *)

Module GamepadDevice.

(** What the model keeps of an [evdev.InputDevice]: its name and its path. *)
Record device : Type := mk_device {
  name : String.string;
  fn : String.string
}.

(** The [for device in available_devices] loop: every device with the
    wanted name overwrites [device_path]. *)
Fixpoint scan (device_name : String.string) (available_devices : list device)
  (device_path : option String.string) : option String.string :=
  match available_devices with
  | [] => device_path
  | d :: rest =>
      scan device_name rest
        (if String.eqb (name d) device_name then Some (fn d) else device_path)
  end.

(** [_get_path_of_device_with_name(device_name, block)].  [polls] holds what
    [evdev.list_devices()] finds each time the [while] loop comes round, in
    order.  The outer [None] is a call that has not returned when the polls
    run out; the inner option is the returned [device_path]. *)
Fixpoint _get_path_of_device_with_name (device_name : String.string) (block : bool)
  (polls : list (list device)) : option (option String.string) :=
  if negb block then Some None
  else
    match polls with
    | [] => None
    | available_devices :: later =>
        match scan device_name available_devices None with
        | Some device_path => Some (Some device_path)
        | None => _get_path_of_device_with_name device_name block later
        end
    end.

End GamepadDevice.

(** * Vocabulary of the properties *)

(** A sample of the battery guard whose reading is not 1. *)
Definition not_positive (s : Z * R) : Prop := fst s <> 1%Z.

(** The type and code filters of [Gamepad.run], without the counter. *)
Definition matches_filters (ev : Gamepad.event) : bool :=
  Gamepad.mem (Gamepad.ev_type ev) Gamepad._TARGET_EVENT_TYPES
  && Gamepad.mem (Gamepad.ev_code ev) Gamepad._TARGET_EVENT_CODES.

(** Both stick axes have a value in [last_event_values]. *)
Definition has_both_axes (d : Gamepad.dict) : Prop :=
  exists x y,
    Gamepad.dict_get d Gamepad._EVENT_CODE_RIGHT_X_AXIS = Some x
    /\ Gamepad.dict_get d Gamepad._EVENT_CODE_RIGHT_Y_AXIS = Some y.

(** The [Tadpole] that [Tadpole.__init__] builds at time [now]. *)
Definition tadpole_at_start (now : R) : Tadpole.t :=
  Tadpole.mk MotorController.default
    (Gamepad.mk (-1) [] [(2%Z, 0%Z); (5%Z, 0%Z)] false true 1 0)
    (BatteryGuard.init now) Tadpole.AtCheck [].

Definition is_coordinator (a : Tadpole.action) : bool :=
  match a with Tadpole.Coordinator => true | _ => false end.

Definition not_positive_action (a : Tadpole.action) : Prop :=
  match a with Tadpole.Monitor reading _ => reading <> 1%Z | _ => True end.

(** Where the coordinator is after [k] of its own steps from the check, the
    flag being false all along, with the calls it has made and the state of
    the controller: the check, then [stop], then the standby loop. *)
Definition gate_phase (w0 : Tadpole.t) (k : nat) (w : Tadpole.t) : Prop :=
  BatteryGuard.is_battery_ok (Tadpole.battery_guard w) = false
  /\ match k with
     | O => Tadpole.at_pc w = Tadpole.AtCheck
            /\ Tadpole.calls w = Tadpole.calls w0
            /\ Tadpole.motor_ctrl w = Tadpole.motor_ctrl w0
     | S O => Tadpole.at_pc w = Tadpole.AtStop
              /\ Tadpole.calls w = Tadpole.calls w0
              /\ Tadpole.motor_ctrl w = Tadpole.motor_ctrl w0
     | S (S _) => Tadpole.in_standby (Tadpole.at_pc w) = true
                  /\ Tadpole.calls w
                     = Tadpole.calls w0 ++ [Tadpole.Stop Tadpole.Left;
                                            Tadpole.Stop Tadpole.Right]
                  /\ Tadpole.motor_ctrl w
                     = MotorController.stop (Tadpole.motor_ctrl w0)
     end.

(** Lines 72-81 of [handle_vector_input]: the throttle after scale, curve,
    gate and limit, as a function of the normalized length. *)
Definition staged_throttle (self : MotorController.t) (len : R) : R :=
  let throttle := MotorController.throttle_scale self * len in
  let throttle :=
    if MotorController.enable_throttle_curve self
    then MotorController._apply_throttle_curve throttle else throttle in
  let throttle :=
    match MotorController.throttle_gate_threshold self with
    | Some th => MotorController._apply_throttle_gate th throttle
    | None => throttle
    end in
  match MotorController.throttle_limit self with
  | Some lim => MotorController._apply_throttle_limiting lim throttle
  | None => throttle
  end.

(** The limit of a configuration is absent or not negative. *)
Definition limit_not_negative (self : MotorController.t) : Prop :=
  match MotorController.throttle_limit self with
  | Some lim => 0 <= lim
  | None => True
  end.

(** The events of a run that pass the test of [Gamepad.run], the counter
    standing at [count] before the first of them. *)
Fixpoint accepted_events (nth count : Z) (evs : list Gamepad.event)
  : list Gamepad.event :=
  match evs with
  | [] => []
  | ev :: rest =>
      if Z.eqb ((count + 1) mod nth) 0 && matches_filters ev
      then ev :: accepted_events nth (count + 1) rest
      else accepted_events nth (count + 1) rest
  end.

(** The vector as [get_xy_vector_from_queue] hands it out. *)
Definition inverted (g : Gamepad.t) (v : Z * Z) : Z * Z :=
  ((if Gamepad.invert_x g then fst v * -1 else fst v)%Z,
   (if Gamepad.invert_y g then snd v * -1 else snd v)%Z).


(** The coordinator is driving: outside the standby branch. *)
Definition driving (p : Tadpole.pc) : bool :=
  match p with
  | Tadpole.AtCheck | Tadpole.AtFetch | Tadpole.AtHandle _ => true
  | _ => false
  end.

(** The schedule contains no sample with a zero reading. *)
Definition no_zero_reading (schedule : list Tadpole.action) : Prop :=
  Forall (fun a => match a with Tadpole.Monitor reading _ => reading <> 0%Z | _ => True end)
         schedule.

(** * Properties *)

(** ** Comparisons and rounding *)

Lemma ltb_spec (x y : R) : reflect (x < y) (x <? y).
Proof. unfold Py.ltb; destruct (Rlt_dec x y); constructor; assumption. Qed.

Lemma leb_spec (x y : R) : reflect (x <= y) (x <=? y).
Proof. unfold Py.leb; destruct (Rle_dec x y); constructor; assumption. Qed.

(** Decide every comparison in the goal, dropping the impossible cases. *)
Ltac cmp :=
  repeat match goal with
    | |- context [Py.ltb ?x ?y] => destruct (ltb_spec x y); try (exfalso; lra)
    | |- context [Py.leb ?x ?y] => destruct (leb_spec x y); try (exfalso; lra)
    end;
  cbn [andb orb negb Py.bind].

(** ** The side modifiers *)

Section Modifiers.

Import MotorController.

Lemma left_mod_band1 (a : R) :
  -180 < a <= -90 -> calc_left_throttle_mod a = Py.Ok (Some (-1)).
Proof.
  intros H; unfold calc_left_throttle_mod, _assert_angle_within_range.
  cmp; reflexivity.
Qed.

Lemma left_mod_band2 (a : R) :
  -90 < a < 0 -> calc_left_throttle_mod a = Py.Ok (Some (a / 45 + 1)).
Proof.
  intros H; unfold calc_left_throttle_mod, _assert_angle_within_range.
  cmp; reflexivity.
Qed.

Lemma left_mod_band3 (a : R) :
  0 <= a <= 90 -> calc_left_throttle_mod a = Py.Ok (Some 1).
Proof.
  intros H; unfold calc_left_throttle_mod, _assert_angle_within_range.
  cmp; reflexivity.
Qed.

Lemma left_mod_band4 (a : R) :
  90 < a <= 180 -> calc_left_throttle_mod a = Py.Ok (Some (- a / 45 + 3)).
Proof.
  intros H; unfold calc_left_throttle_mod, _assert_angle_within_range.
  cmp; reflexivity.
Qed.

Lemma right_mod_band1 (a : R) :
  -180 < a < -90 -> calc_right_throttle_mod a = Py.Ok (Some (- a / 45 - 3)).
Proof.
  intros H; unfold calc_right_throttle_mod, _assert_angle_within_range.
  cmp; reflexivity.
Qed.

Lemma right_mod_band2 (a : R) :
  -90 <= a <= 0 -> calc_right_throttle_mod a = Py.Ok (Some (-1)).
Proof.
  intros H; unfold calc_right_throttle_mod, _assert_angle_within_range.
  cmp; reflexivity.
Qed.

Lemma right_mod_band3 (a : R) :
  0 < a < 90 -> calc_right_throttle_mod a = Py.Ok (Some (a / 45 - 1)).
Proof.
  intros H; unfold calc_right_throttle_mod, _assert_angle_within_range.
  cmp; reflexivity.
Qed.

Lemma right_mod_band4 (a : R) :
  90 <= a <= 180 -> calc_right_throttle_mod a = Py.Ok (Some 1).
Proof.
  intros H; unfold calc_right_throttle_mod, _assert_angle_within_range.
  cmp; reflexivity.
Qed.

Lemma mod_out_of_range (a : R) :
  a <= -180 \/ a > 180 ->
  calc_left_throttle_mod a = Py.Raise Py.ValueError
  /\ calc_right_throttle_mod a = Py.Raise Py.ValueError.
Proof.
  intros H.
  unfold calc_left_throttle_mod, calc_right_throttle_mod, _assert_angle_within_range.
  destruct H; split; cmp; reflexivity.
Qed.

(** The four bands cover the valid range. *)
Lemma band_cases (a : R) :
  -180 < a <= 180 ->
  -180 < a < -90 \/ a = -90 \/ -90 < a < 0 \/ a = 0
  \/ 0 < a < 90 \/ a = 90 \/ 90 < a <= 180.
Proof. intros H. lra. Qed.

(** Inside the valid range both modifiers return a number in [-1, 1]. *)
Lemma mod_in_range (a : R) :
  -180 < a <= 180 ->
  (exists l, calc_left_throttle_mod a = Py.Ok (Some l) /\ -1 <= l <= 1)
  /\ (exists r, calc_right_throttle_mod a = Py.Ok (Some r) /\ -1 <= r <= 1).
Proof.
  intros H.
  destruct (band_cases a H) as [B | [B | [B | [B | [B | [B | B]]]]]].
  - split; eexists; (split; [ first [ apply left_mod_band1 | apply right_mod_band1 ]; lra | lra ]).
  - split; eexists; (split; [ first [ apply left_mod_band1 | apply right_mod_band2 ]; lra | lra ]).
  - split; eexists; (split; [ first [ apply left_mod_band2 | apply right_mod_band2 ]; lra | lra ]).
  - split; eexists; (split; [ first [ apply left_mod_band3 | apply right_mod_band2 ]; lra | lra ]).
  - split; eexists; (split; [ first [ apply left_mod_band3 | apply right_mod_band3 ]; lra | lra ]).
  - split; eexists; (split; [ first [ apply left_mod_band3 | apply right_mod_band4 ]; lra | lra ]).
  - split; eexists; (split; [ first [ apply left_mod_band4 | apply right_mod_band4 ]; lra | lra ]).
Qed.

End Modifiers.

(** C6.  An angle [a] with [a <= -180] or [a > 180] makes both
    [calc_left_throttle_mod] and [calc_right_throttle_mod] raise [ValueError]
    (nothing is clamped); for an angle in (-180, 180] neither raises, and both
    return a number. *)
Theorem modifier_angle_range_check (a : R) :
  (a <= -180 \/ a > 180 ->
   MotorController.calc_left_throttle_mod a = Py.Raise Py.ValueError
   /\ MotorController.calc_right_throttle_mod a = Py.Raise Py.ValueError)
  /\ (-180 < a <= 180 ->
      (exists l, MotorController.calc_left_throttle_mod a = Py.Ok (Some l))
      /\ (exists r, MotorController.calc_right_throttle_mod a = Py.Ok (Some r))).
Proof.
  split.
  - apply mod_out_of_range.
  - intros H. destruct (mod_in_range a H) as [[l [Hl _]] [r [Hr _]]].
    split; [ exists l | exists r ]; assumption.
Qed.

(** The angles 181 and -180 raise, the angle 180 does not. *)
Lemma modifier_angle_range_check_witness :
  (MotorController.calc_left_throttle_mod 181 = Py.Raise Py.ValueError
   /\ MotorController.calc_right_throttle_mod 181 = Py.Raise Py.ValueError)
  /\ (MotorController.calc_left_throttle_mod (-180) = Py.Raise Py.ValueError
      /\ MotorController.calc_right_throttle_mod (-180) = Py.Raise Py.ValueError)
  /\ ((exists l, MotorController.calc_left_throttle_mod 180 = Py.Ok (Some l))
      /\ (exists r, MotorController.calc_right_throttle_mod 180 = Py.Ok (Some r))).
Proof.
  split; [ | split ].
  - apply (proj1 (modifier_angle_range_check 181)). right. lra.
  - apply (proj1 (modifier_angle_range_check (-180))). left. lra.
  - apply (proj2 (modifier_angle_range_check 180)). lra.
Defined.

(** C7.  For every angle in (-180, 180] the left and the right modifier are
    numbers in [-1, 1]. *)
Theorem modifiers_bounded (a : R) :
  -180 < a <= 180 ->
  exists l r,
    MotorController.calc_left_throttle_mod a = Py.Ok (Some l)
    /\ MotorController.calc_right_throttle_mod a = Py.Ok (Some r)
    /\ -1 <= l <= 1 /\ -1 <= r <= 1.
Proof.
  intros H. destruct (mod_in_range a H) as [[l [Hl Bl]] [r [Hr Br]]].
  exists l, r. repeat split; try assumption; lra.
Qed.

Lemma modifiers_bounded_witness :
  exists l r,
    MotorController.calc_left_throttle_mod (-45) = Py.Ok (Some l)
    /\ MotorController.calc_right_throttle_mod (-45) = Py.Ok (Some r)
    /\ -1 <= l <= 1 /\ -1 <= r <= 1.
Proof. apply (modifiers_bounded (-45)). lra. Defined.

(** C8.  The left modifier follows the four-band contract: -1 on (-180, -90],
    the ramp [a / 45 + 1] on (-90, 0), 1 on [0, 90] and the ramp
    [- a / 45 + 3] on (90, 180]; and the right modifier is its point-symmetric
    complement: whenever [a] and [- a] are both in (-180, 180], the right
    modifier at [a] is the opposite of the left modifier at [- a]. *)
Theorem right_mod_mirrors_left_mod (a : R) :
  ((-180 < a <= -90 -> MotorController.calc_left_throttle_mod a = Py.Ok (Some (-1)))
   /\ (-90 < a < 0 -> MotorController.calc_left_throttle_mod a = Py.Ok (Some (a / 45 + 1)))
   /\ (0 <= a <= 90 -> MotorController.calc_left_throttle_mod a = Py.Ok (Some 1))
   /\ (90 < a <= 180 ->
       MotorController.calc_left_throttle_mod a = Py.Ok (Some (- a / 45 + 3))))
  /\ (-180 < a <= 180 -> -180 < - a <= 180 ->
      exists l r,
        MotorController.calc_left_throttle_mod (- a) = Py.Ok (Some l)
        /\ MotorController.calc_right_throttle_mod a = Py.Ok (Some r)
        /\ r = - l).
Proof.
  split.
  - repeat split; intros H.
    + now apply left_mod_band1.
    + now apply left_mod_band2.
    + now apply left_mod_band3.
    + now apply left_mod_band4.
  - intros H H'.
    destruct (band_cases a H) as [B | [B | [B | [B | [B | [B | B]]]]]].
    + exists (- (- a) / 45 + 3), (- a / 45 - 3).
      rewrite left_mod_band4, right_mod_band1 by lra. repeat split; lra.
    + exists 1, (-1).
      rewrite left_mod_band3, right_mod_band2 by lra. repeat split; lra.
    + exists 1, (-1).
      rewrite left_mod_band3, right_mod_band2 by lra. repeat split; lra.
    + exists 1, (-1).
      rewrite left_mod_band3, right_mod_band2 by lra. repeat split; lra.
    + exists (- a / 45 + 1), (a / 45 - 1).
      rewrite left_mod_band2, right_mod_band3 by lra. repeat split; lra.
    + exists (-1), 1.
      rewrite left_mod_band1, right_mod_band4 by lra. repeat split; lra.
    + exists (-1), 1.
      rewrite left_mod_band1, right_mod_band4 by lra. repeat split; lra.
Qed.

(** At 30 degrees the right modifier is -1/3 and the left modifier at -30
    degrees is 1/3. *)
Lemma right_mod_mirrors_left_mod_witness :
  exists l r,
    MotorController.calc_left_throttle_mod (- 30) = Py.Ok (Some l)
    /\ MotorController.calc_right_throttle_mod 30 = Py.Ok (Some r)
    /\ r = - l.
Proof. apply (proj2 (right_mod_mirrors_left_mod 30)); lra. Defined.

(** ** Rounding *)

(** A number strictly within 1/2 of an integer rounds to that integer. *)
Lemma round_eval (z : Z) (x : R) :
  IZR z - 1 / 2 < x < IZR z + 1 / 2 -> Py.round x = z.
Proof.
  intros H. unfold Py.round.
  destruct (Rle_dec (IZR z) x) as [Hge | Hlt].
  - rewrite (Zfloor_eq z x) by lra. cmp. reflexivity.
  - assert (Hf : Zfloor x = (z - 1)%Z).
    { apply Zfloor_eq. rewrite minus_IZR. lra. }
    rewrite Hf, minus_IZR. cmp. lia.
Qed.

(** Ties go to the even neighbour: both 1/2 and -1/2 round to 0. *)
Lemma round_near_zero (x : R) : -1 / 2 <= x <= 1 / 2 -> Py.round x = 0%Z.
Proof.
  intros H.
  destruct (Req_dec x (1 / 2)) as [E | NE]; [ | destruct (Req_dec x (-1 / 2)) as [E' | NE'] ].
  - unfold Py.round. rewrite (Zfloor_eq 0 x) by lra. cmp. reflexivity.
  - unfold Py.round. rewrite (Zfloor_eq (-1) x) by lra. cmp. reflexivity.
  - apply round_eval. lra.
Qed.

(** The result of [round] is at most 1/2 away from its argument. *)
Lemma round_nearest (x : R) : Rabs (IZR (Py.round x) - x) <= 1 / 2.
Proof.
  unfold Py.round.
  pose proof (Zfloor_bound x) as B.
  destruct (ltb_spec (x - IZR (Zfloor x)) (1 / 2)).
  - apply Rabs_le. lra.
  - destruct (ltb_spec (1 / 2) (x - IZR (Zfloor x))).
    + rewrite plus_IZR. apply Rabs_le. lra.
    + destruct (Z.even (Zfloor x)); [ | rewrite plus_IZR ]; apply Rabs_le; lra.
Qed.

(** ** The throttle curve *)

Lemma curve_poly_upper (t : R) :
  0 <= t <= 1 -> MotorController.throttle_curve_poly t < 1.
Proof.
  intros H. unfold MotorController.throttle_curve_poly.
  assert (H1 : 0 <= t * (1 - t)) by (apply Rmult_le_pos; lra).
  assert (H2 : 0 <= t * (1 - t) * (1 - t)) by (apply Rmult_le_pos; lra).
  lra.
Qed.

Lemma curve_poly_lower (t : R) :
  0 <= t <= 1 -> -1 / 2 < MotorController.throttle_curve_poly t.
Proof.
  intros H. unfold MotorController.throttle_curve_poly.
  assert (H1 : 0 <= t * (1 - t)) by (apply Rmult_le_pos; lra).
  assert (H2 : 0 <= t * t * (1 - t)) by (apply Rmult_le_pos; nra).
  assert (H3 : 0 <= t * t) by nra.
  lra.
Qed.

Lemma curve_inside (t : R) :
  0 <= MotorController.throttle_curve_poly t <= 1 ->
  MotorController._apply_throttle_curve t = MotorController.throttle_curve_poly t.
Proof.
  intros H. unfold MotorController._apply_throttle_curve.
  cbv zeta. cmp. reflexivity.
Qed.

Lemma curve_outside (t : R) :
  ~ (0 <= MotorController.throttle_curve_poly t <= 1) ->
  MotorController._apply_throttle_curve t
  = IZR (Py.round (MotorController.throttle_curve_poly t)).
Proof.
  intros H. unfold MotorController._apply_throttle_curve.
  cbv zeta. cmp; reflexivity.
Qed.

(** C2, as the code has it.  [_apply_throttle_curve t] is the cubic
    [0 - 0.1666667 t + 1.722222 t^2 - 0.5555556 t^3] when that value lies in
    [0, 1].  When the value leaves [0, 1] the result is [round] of it: the
    nearest integer (at most 1/2 away, ties to even), which is 0 for a value in
    [-1/2, 0) and 1 for a value in (1, 3/2).  For a throttle in [0, 1] the
    cubic stays in (-1/2, 1), so the result lies in [0, 1]. *)
Theorem throttle_curve_rounds_to_nearest_integer (t : R) :
  let p := MotorController.throttle_curve_poly t in
  let out := MotorController._apply_throttle_curve t in
  (0 <= p <= 1 -> out = p)
  /\ (~ (0 <= p <= 1) -> out = IZR (Py.round p) /\ Rabs (out - p) <= 1 / 2)
  /\ (-1 / 2 <= p < 0 -> out = 0)
  /\ (1 < p < 3 / 2 -> out = 1)
  /\ (0 <= t <= 1 -> 0 <= out <= 1 /\ (out = p \/ out = 0)).
Proof.
  cbv zeta. repeat split.
  - apply curve_inside.
  - now apply curve_outside.
  - rewrite curve_outside by assumption. apply round_nearest.
  - intros H. rewrite curve_outside by lra.
    rewrite round_near_zero by lra. reflexivity.
  - intros H. rewrite curve_outside by lra.
    rewrite (round_eval 1) by lra. reflexivity.
  - pose proof (curve_poly_lower t H) as L. pose proof (curve_poly_upper t H) as U.
    destruct (Rle_dec 0 (MotorController.throttle_curve_poly t)).
    + rewrite curve_inside; lra.
    + rewrite curve_outside, round_near_zero by lra. lra.
  - pose proof (curve_poly_lower t H) as L. pose proof (curve_poly_upper t H) as U.
    destruct (Rle_dec 0 (MotorController.throttle_curve_poly t)).
    + rewrite curve_inside; lra.
    + rewrite curve_outside, round_near_zero by lra. lra.
  - pose proof (curve_poly_lower t H) as L. pose proof (curve_poly_upper t H) as U.
    destruct (Rle_dec 0 (MotorController.throttle_curve_poly t)).
    + left. apply curve_inside. lra.
    + right. rewrite curve_outside, round_near_zero by lra. reflexivity.
Qed.

(** At throttle 1/20 the cubic is slightly negative and the result is 0. *)
Lemma throttle_curve_rounds_to_nearest_integer_witness :
  MotorController._apply_throttle_curve (1 / 20) = 0.
Proof.
  apply (proj1 (proj2 (proj2 (throttle_curve_rounds_to_nearest_integer (1 / 20))))).
  unfold MotorController.throttle_curve_poly. lra.
Defined.

(** C2 fails as stated: at throttle 2 (reachable with [throttle_scale = 2])
    the cubic is about 2.11, outside [0, 1], and the result is 2, which is
    neither 0 nor 1. *)
Lemma throttle_curve_not_in_0_1_counterexample :
  ~ (0 <= MotorController.throttle_curve_poly 2 <= 1)
  /\ MotorController._apply_throttle_curve 2 = 2
  /\ MotorController._apply_throttle_curve 2 <> 0
  /\ MotorController._apply_throttle_curve 2 <> 1.
Proof.
  assert (P : 2 < MotorController.throttle_curve_poly 2 < 5 / 2)
    by (unfold MotorController.throttle_curve_poly; lra).
  assert (E : MotorController._apply_throttle_curve 2 = 2).
  { rewrite curve_outside by lra. rewrite (round_eval 2) by lra. reflexivity. }
  rewrite E. repeat split; lra.
Qed.

(** ** Angle and length of a vector *)

Lemma degrees_half_pi : Py.degrees (PI / 2) = 90.
Proof. unfold Py.degrees. pose proof PI_RGT_0. field. lra. Qed.

(** [degrees] maps (-pi, pi] into (-180, 180]. *)
Lemma degrees_range (r : R) : - PI < r <= PI -> -180 < Py.degrees r <= 180.
Proof.
  intros H. unfold Py.degrees. pose proof PI_RGT_0 as P.
  assert (K : 0 < 180 / PI) by (apply Rdiv_lt_0_compat; lra).
  assert (E : PI * (180 / PI) = 180) by (field; lra).
  split; nra.
Qed.

Lemma atan_nonpos (x : R) : x <= 0 -> atan x <= 0.
Proof.
  intros [H | H].
  - rewrite <- atan_0. left. now apply atan_increasing.
  - subst. rewrite atan_0. lra.
Qed.

Lemma atan_pos (x : R) : 0 < x -> 0 < atan x.
Proof. intros H. rewrite <- atan_0. now apply atan_increasing. Qed.

(** [atan2] stays in (-pi, pi]. *)
Lemma atan2_range (y x : R) : - PI < Py.atan2 y x <= PI.
Proof.
  unfold Py.atan2. pose proof PI_RGT_0 as P.
  pose proof (atan_bound (y / x)) as B.
  destruct (ltb_spec 0 x); [ lra | ].
  destruct (ltb_spec x 0) as [Hx | Hx].
  - assert (Hi : / x < 0) by now apply Rinv_lt_0_compat.
    destruct (ltb_spec y 0) as [Hy | Hy].
    + assert (0 < atan (y / x)) by (apply atan_pos; unfold Rdiv; nra).
      lra.
    + assert (atan (y / x) <= 0) by (apply atan_nonpos; unfold Rdiv; nra).
      lra.
  - destruct (ltb_spec 0 y); [ lra | ].
    destruct (ltb_spec y 0); lra.
Qed.

(** The angle of any integer vector passes the range check. *)
Lemma calc_vector_angle_range (v : Z * Z) :
  -180 < MotorController.calc_vector_angle v <= 180.
Proof. unfold MotorController.calc_vector_angle. apply degrees_range, atan2_range. Qed.

(** A vector pointing straight up has angle 90 degrees. *)
Lemma calc_vector_angle_up (y : Z) :
  (0 < y)%Z -> MotorController.calc_vector_angle (0%Z, y) = 90.
Proof.
  intros H. unfold MotorController.calc_vector_angle, Py.atan2. cbn [fst snd].
  apply IZR_lt in H. cmp. apply degrees_half_pi.
Qed.

Lemma calc_normalized_vector_length_nonneg (v : Z * Z) :
  0 <= MotorController.calc_normalized_vector_length v <= 1.
Proof.
  unfold MotorController.calc_normalized_vector_length, Py.sqrt. cbv zeta.
  set (s := sqrt _). assert (0 <= s) by apply sqrt_pos.
  assert (M : IZR MotorController.MAX_ABS_AXIS_VALUE = 32768)
    by (unfold MotorController.MAX_ABS_AXIS_VALUE; simpl; lra).
  rewrite M.
  destruct (ltb_spec 1 (s / 32768)); [ lra | ].
  split; [ | lra ]. unfold Rdiv. apply Rmult_le_pos; lra.
Qed.

(** A full deflection along one axis has normalized length exactly 1. *)
Lemma calc_normalized_vector_length_full :
  MotorController.calc_normalized_vector_length (0%Z, 32768%Z) = 1.
Proof.
  unfold MotorController.calc_normalized_vector_length, Py.sqrt. cbn [fst snd].
  replace (IZR (0 ^ 2 + 32768 ^ 2)) with (32768 * 32768)
    by (change (0 ^ 2 + 32768 ^ 2)%Z with 1073741824%Z; lra).
  rewrite sqrt_square by lra.
  replace (IZR MotorController.MAX_ABS_AXIS_VALUE) with 32768
    by (unfold MotorController.MAX_ABS_AXIS_VALUE; simpl; lra).
  replace (32768 / 32768) with 1 by lra.
  cmp. reflexivity.
Qed.

(** ** The shaping pipeline *)

Lemma copysign_abs (x y : R) : Rabs (Py.copysign x y) = Rabs x.
Proof.
  unfold Py.copysign. destruct (ltb_spec y 0).
  - rewrite Rabs_Ropp. apply Rabs_Rabsolu.
  - apply Rabs_Rabsolu.
Qed.

(** The limiting stage leaves a magnitude of at most [|limit|]. *)
Lemma limiting_bound (limit thr : R) :
  Rabs (MotorController._apply_throttle_limiting limit thr) <= Rabs limit.
Proof.
  unfold MotorController._apply_throttle_limiting.
  destruct (ltb_spec limit (Rabs thr)) as [H | H].
  - rewrite copysign_abs. lra.
  - pose proof (Rle_abs limit). lra.
Qed.

(** The shaper never raises on an integer vector: it returns the product of
    one throttle value with the two modifiers, the modifiers being in
    [-1, 1]; and when a limit is configured, the throttle value has gone
    through [_apply_throttle_limiting]. *)
Lemma shaped_throttles_ok (self : MotorController.t) (v : Z * Z) :
  exists thr lm rm,
    MotorController.shaped_throttles self v = Py.Ok (thr * lm, thr * rm)
    /\ -1 <= lm <= 1 /\ -1 <= rm <= 1
    /\ (forall limit, MotorController.throttle_limit self = Some limit ->
        exists thr0, thr = MotorController._apply_throttle_limiting limit thr0).
Proof.
  unfold MotorController.shaped_throttles.
  destruct (mod_in_range _ (calc_vector_angle_range v)) as [[lm [Hl Bl]] [rm [Hr Br]]].
  rewrite Hl, Hr. cbn [Py.bind].
  eexists; exists lm, rm. split; [ reflexivity | ].
  split; [ assumption | split; [ assumption | ] ].
  intros limit E. rewrite E. eexists. reflexivity.
Qed.

Lemma handle_vector_input_ok (self : MotorController.t) (v : Z * Z) (l r : R) :
  MotorController.shaped_throttles self v = Py.Ok (l, r) ->
  MotorController.handle_vector_input self v
  = Py.Ok (MotorController.mk
             (Motor.change_throttle (MotorController.left_motor self) l)
             (Motor.change_throttle (MotorController.right_motor self) r)
             (MotorController.enable_throttle_curve self)
             (MotorController.throttle_gate_threshold self)
             (MotorController.throttle_scale self)
             (MotorController.throttle_limit self)).
Proof.
  intros H. unfold MotorController.handle_vector_input. rewrite H. reflexivity.
Qed.

Lemma abs_le_bounds (x b : R) : Rabs x <= b -> - b <= x <= b.
Proof. unfold Rabs. destruct (Rcase_abs x); lra. Qed.

Lemma scaled_by_modifier (thr m bound : R) :
  Rabs thr <= bound -> -1 <= m <= 1 -> Rabs (thr * m) <= bound.
Proof.
  intros Ht Hm. rewrite Rabs_mult.
  assert (Rabs m <= 1) by (apply Rabs_le; lra).
  pose proof (Rabs_pos thr). pose proof (Rabs_pos m). nra.
Qed.

(** C4, as the code has it.  When the limiting stage is configured with the
    limit [limit], [handle_vector_input] raises on no integer vector and
    hands to the two motors' [change_throttle] a pair whose components have
    magnitude at most [|limit|]; they lie in [-1, 1] whenever [|limit| <= 1],
    as with the default limit 1.0. *)
Theorem shaped_throttles_within_limit
  (self : MotorController.t) (v : Z * Z) (limit : R) :
  MotorController.throttle_limit self = Some limit ->
  exists l r ctrl,
    MotorController.shaped_throttles self v = Py.Ok (l, r)
    /\ MotorController.handle_vector_input self v = Py.Ok ctrl
    /\ MotorController.left_motor ctrl
       = Motor.change_throttle (MotorController.left_motor self) l
    /\ MotorController.right_motor ctrl
       = Motor.change_throttle (MotorController.right_motor self) r
    /\ Rabs l <= Rabs limit /\ Rabs r <= Rabs limit
    /\ (Rabs limit <= 1 -> -1 <= l <= 1 /\ -1 <= r <= 1).
Proof.
  intros E.
  destruct (shaped_throttles_ok self v) as (thr & lm & rm & Hs & Bl & Br & Hlim).
  destruct (Hlim limit E) as [thr0 Ht].
  assert (Bt : Rabs thr <= Rabs limit) by (rewrite Ht; apply limiting_bound).
  pose proof (scaled_by_modifier thr lm _ Bt Bl) as Al.
  pose proof (scaled_by_modifier thr rm _ Bt Br) as Ar.
  exists (thr * lm), (thr * rm). eexists.
  split; [ exact Hs | ].
  split; [ apply handle_vector_input_ok; exact Hs | ].
  cbn [MotorController.left_motor MotorController.right_motor].
  split; [ reflexivity | split; [ reflexivity | ] ].
  split; [ assumption | split; [ assumption | ] ].
  intros L1.
  pose proof (abs_le_bounds (thr * lm) 1) as Xl.
  pose proof (abs_le_bounds (thr * rm) 1) as Xr.
  lra.
Qed.

(** With the default configuration (limit 1.0), the vector (20000, -30000)
    yields two throttles in [-1, 1]. *)
Lemma shaped_throttles_within_limit_witness :
  exists l r ctrl,
    MotorController.shaped_throttles MotorController.default (20000%Z, (-30000)%Z)
    = Py.Ok (l, r)
    /\ MotorController.handle_vector_input MotorController.default
         (20000%Z, (-30000)%Z) = Py.Ok ctrl
    /\ MotorController.left_motor ctrl
       = Motor.change_throttle (MotorController.left_motor MotorController.default) l
    /\ MotorController.right_motor ctrl
       = Motor.change_throttle (MotorController.right_motor MotorController.default) r
    /\ Rabs l <= Rabs 1 /\ Rabs r <= Rabs 1
    /\ (Rabs 1 <= 1 -> -1 <= l <= 1 /\ -1 <= r <= 1).
Proof.
  apply (shaped_throttles_within_limit MotorController.default
           (20000%Z, (-30000)%Z) 1).
  reflexivity.
Defined.

(** C4 fails for some configurations: with [throttle_scale = 2] and
    [throttle_limit = 2] (curve and gate off), the vector (0, 32768) passes
    the limiting stage and both motors are handed the throttle 2. *)
Lemma shaped_throttles_exceed_one_counterexample :
  exists l r,
    MotorController.shaped_throttles
      (MotorController.init false None 2 (Some 2)) (0%Z, 32768%Z) = Py.Ok (l, r)
    /\ l = 2 /\ r = 2 /\ ~ (-1 <= l <= 1) /\ ~ (-1 <= r <= 1).
Proof.
  unfold MotorController.shaped_throttles.
  rewrite calc_vector_angle_up by lia.
  rewrite left_mod_band3, right_mod_band4 by lra.
  rewrite calc_normalized_vector_length_full.
  cbn [Py.bind MotorController.init MotorController.throttle_scale
       MotorController.enable_throttle_curve MotorController.throttle_gate_threshold
       MotorController.throttle_limit].
  unfold MotorController._apply_throttle_limiting.
  rewrite (Rabs_pos_eq (2 * 1)) by lra. cmp.
  eexists; eexists. split; [ reflexivity | ].
  repeat split; lra.
Qed.

(** ** The battery guard *)

Section Guard.

Import BatteryGuard.

Variable timeout : R.

Lemma sample_positive (g : t) (now : R) :
  sample timeout g 1 now = mk true now 1.
Proof. reflexivity. Qed.

Lemma sample_zero_late (g : t) (now : R) :
  timeout < now - _last_ok_time g ->
  sample timeout g 0 now = mk false (_last_ok_time g) 0.
Proof. intros H. unfold sample. cbn [Z.eqb andb]. cmp. reflexivity. Qed.

Lemma sample_zero_early (g : t) (now : R) :
  now - _last_ok_time g <= timeout ->
  sample timeout g 0 now = mk (is_battery_ok g) (_last_ok_time g) 0.
Proof. intros H. unfold sample. cbn [Z.eqb andb]. cmp. reflexivity. Qed.

(** A sample that is not positive never touches [_last_ok_time] and never
    sets the flag. *)
Lemma sample_not_positive (g : t) (reading : Z) (now : R) :
  reading <> 1%Z ->
  _last_ok_time (sample timeout g reading now) = _last_ok_time g
  /\ (is_battery_ok (sample timeout g reading now) = true -> is_battery_ok g = true).
Proof.
  intros H. unfold sample.
  destruct (Z.eqb_spec reading 1); [ contradiction | ].
  destruct (Z.eqb reading 0 && (timeout <? now - _last_ok_time g)); cbn; split;
    auto; discriminate.
Qed.

(** The flag rises only on a positive reading. *)
Lemma sample_rises (g : t) (reading : Z) (now : R) :
  is_battery_ok g = false ->
  is_battery_ok (sample timeout g reading now) = true -> reading = 1%Z.
Proof.
  intros Hf Ht. destruct (Z.eq_dec reading 1) as [E | NE]; [ assumption | ].
  destruct (sample_not_positive g reading now NE) as [_ K].
  rewrite (K Ht) in Hf. discriminate.
Qed.

(** The flag falls only on a zero reading later than the timeout. *)
Lemma sample_falls (g : t) (reading : Z) (now : R) :
  is_battery_ok g = true ->
  is_battery_ok (sample timeout g reading now) = false ->
  reading = 0%Z /\ timeout < now - _last_ok_time g.
Proof.
  unfold sample. intros Ht.
  destruct (Z.eqb_spec reading 1); [ discriminate | ].
  destruct (Z.eqb_spec reading 0); cbn [andb].
  - destruct (ltb_spec timeout (now - _last_ok_time g)); cbn.
    + intros _. split; assumption.
    + rewrite Ht. discriminate.
  - cbn. rewrite Ht. discriminate.
Qed.

(** Over a run of samples none of which is positive, [_last_ok_time] stays. *)
Lemma run_not_positive (samples : list (Z * R)) (g : t) :
  Forall not_positive samples ->
  _last_ok_time (run timeout g samples) = _last_ok_time g.
Proof.
  intros H. revert g. induction H as [ | s rest Hs _ IH ]; intros g.
  - reflexivity.
  - cbn. unfold run in IH. rewrite IH.
    apply (sample_not_positive g (fst s) (snd s) Hs).
Qed.

Lemma run_app (g : t) (xs ys : list (Z * R)) :
  run timeout g (xs ++ ys) = run timeout (run timeout g xs) ys.
Proof. unfold run. apply fold_left_app. Qed.

(** A guard whose flag is set after some samples has seen a positive
    reading, and [_last_ok_time] is the time of the most recent one. *)
Lemma ok_since_last_positive (samples : list (Z * R)) (start : R) :
  is_battery_ok (run timeout (init start) samples) = true ->
  exists before t1 since,
    samples = before ++ (1%Z, t1) :: since
    /\ Forall not_positive since
    /\ _last_ok_time (run timeout (init start) samples) = t1.
Proof.
  induction samples as [ | s rest IH ] using rev_ind; intros H.
  - discriminate.
  - rewrite run_app in *. cbn in *. destruct s as [reading now]. cbn [fst snd] in *.
    destruct (Z.eq_dec reading 1) as [E | NE].
    + subst. exists rest, now, []. repeat split. constructor.
    + destruct (sample_not_positive (run timeout (init start) rest) reading now NE)
        as [L K].
      destruct (IH (K H)) as (before & t1 & since & E & F & T).
      exists before, t1, (since ++ [(reading, now)]). repeat split.
      * rewrite E, <- app_assoc. reflexivity.
      * apply Forall_app. split; [ assumption | ]. constructor; [ exact NE | constructor ].
      * rewrite L. exact T.
Qed.

End Guard.

(** C3.  One sampling step of the battery guard: a reading of 1 sets the flag
    and resets [_last_ok_time] to now; a reading of 0 clears the flag exactly
    when [now - _last_ok_time] exceeds the timeout and otherwise leaves flag
    and timer as they are.  Hence the flag rises only on a positive reading,
    and falls only on a zero reading that comes more than the timeout after
    the most recent positive reading, every reading in between being
    non-positive; and a set flag always goes back to such a positive
    reading, whose time is the timer. *)
Theorem battery_guard_debounce
  (timeout : R) (g : BatteryGuard.t) (reading : Z) (now : R) :
  (BatteryGuard.is_battery_ok (BatteryGuard.sample timeout g 1 now) = true
   /\ BatteryGuard._last_ok_time (BatteryGuard.sample timeout g 1 now) = now)
  /\ (timeout < now - BatteryGuard._last_ok_time g ->
      BatteryGuard.is_battery_ok (BatteryGuard.sample timeout g 0 now) = false)
  /\ (now - BatteryGuard._last_ok_time g <= timeout ->
      BatteryGuard.is_battery_ok (BatteryGuard.sample timeout g 0 now)
      = BatteryGuard.is_battery_ok g
      /\ BatteryGuard._last_ok_time (BatteryGuard.sample timeout g 0 now)
         = BatteryGuard._last_ok_time g)
  /\ (BatteryGuard.is_battery_ok g = false ->
      BatteryGuard.is_battery_ok (BatteryGuard.sample timeout g reading now) = true ->
      reading = 1%Z)
  /\ (BatteryGuard.is_battery_ok g = true ->
      BatteryGuard.is_battery_ok (BatteryGuard.sample timeout g reading now) = false ->
      reading = 0%Z /\ timeout < now - BatteryGuard._last_ok_time g)
  /\ (forall t1 since,
      Forall not_positive since ->
      let g1 := BatteryGuard.run timeout (BatteryGuard.sample timeout g 1 t1) since in
      BatteryGuard._last_ok_time g1 = t1
      /\ (BatteryGuard.is_battery_ok g1 = true ->
          BatteryGuard.is_battery_ok (BatteryGuard.sample timeout g1 reading now) = false ->
          reading = 0%Z /\ timeout < now - t1))
  /\ (forall start samples,
      BatteryGuard.is_battery_ok
        (BatteryGuard.run timeout (BatteryGuard.init start) samples) = true ->
      exists before t1 since,
        samples = before ++ (1%Z, t1) :: since
        /\ Forall not_positive since
        /\ BatteryGuard._last_ok_time
             (BatteryGuard.run timeout (BatteryGuard.init start) samples) = t1).
Proof.
  split; [ split; reflexivity | ].
  split; [ intros H; rewrite sample_zero_late by assumption; reflexivity | ].
  split; [ intros H; rewrite sample_zero_early by assumption; split; reflexivity | ].
  split; [ apply sample_rises | ].
  split; [ apply sample_falls | ].
  split.
  - intros t1 since F g1.
    assert (L : BatteryGuard._last_ok_time g1 = t1).
    { subst g1. rewrite run_not_positive by assumption. reflexivity. }
    split; [ exact L | ].
    intros Ht Hf. rewrite <- L. now apply sample_falls.
  - intros start samples. apply ok_since_last_positive.
Qed.

(** With the flag set at time 0 and a timeout of 5 s, a zero reading at 6 s
    clears the flag. *)
Lemma battery_guard_debounce_witness :
  BatteryGuard.is_battery_ok
    (BatteryGuard.sample 5 (BatteryGuard.mk true 0 1) 0 6) = false.
Proof.
  apply (proj1 (proj2 (battery_guard_debounce 5 (BatteryGuard.mk true 0 1) 0 6))).
  cbn. lra.
Defined.

(** The scenario of the specification, sampled once per second with the
    timeout of 5 s: after a positive reading at 0 s, zero readings up to 4 s
    (and at 5 s) leave the flag set, the zero reading at 6 s clears it, and a
    positive reading at 7 s sets it again and restarts the timer. *)
Lemma battery_guard_scenario :
  let g0 := BatteryGuard.sample 5 (BatteryGuard.init 0) 1 0 in
  let zeros := [(0%Z, 1); (0%Z, 2); (0%Z, 3); (0%Z, 4)] in
  BatteryGuard.is_battery_ok (BatteryGuard.run 5 g0 zeros) = true
  /\ BatteryGuard.is_battery_ok (BatteryGuard.run 5 g0 (zeros ++ [(0%Z, 5)])) = true
  /\ BatteryGuard.is_battery_ok
       (BatteryGuard.run 5 g0 (zeros ++ [(0%Z, 5); (0%Z, 6)])) = false
  /\ BatteryGuard.run 5 g0 (zeros ++ [(0%Z, 5); (0%Z, 6); (1%Z, 7)])
     = BatteryGuard.mk true 7 1.
Proof.
  cbv zeta. unfold BatteryGuard.run. cbn [fold_left app fst snd].
  rewrite sample_positive.
  rewrite (sample_zero_early 5 _ 1) by (cbn; lra).
  rewrite (sample_zero_early 5 _ 2) by (cbn; lra).
  rewrite (sample_zero_early 5 _ 3) by (cbn; lra).
  rewrite (sample_zero_early 5 _ 4) by (cbn; lra).
  rewrite (sample_zero_early 5 _ 5) by (cbn; lra).
  rewrite (sample_zero_late 5 _ 6) by (cbn; lra).
  repeat split.
Qed.

(** ** The gamepad *)

Section Pad.

Import Gamepad.

Lemma dict_get_set_same (d : dict) (k v : Z) : dict_get (dict_set d k v) k = Some v.
Proof.
  induction d as [ | [k' v'] d IH ]; cbn.
  - now rewrite Z.eqb_refl.
  - destruct (Z.eqb_spec k k') as [E | NE]; cbn.
    + now rewrite Z.eqb_refl.
    + destruct (Z.eqb_spec k k'); [ contradiction | exact IH ].
Qed.

Lemma dict_get_set_other (d : dict) (k k' v : Z) :
  k' <> k -> dict_get (dict_set d k v) k' = dict_get d k'.
Proof.
  intros NE. induction d as [ | [k0 v0] d IH ]; cbn.
  - destruct (Z.eqb_spec k' k); [ contradiction | reflexivity ].
  - destruct (Z.eqb_spec k k0) as [E | NE0]; cbn.
    + subst. destruct (Z.eqb_spec k' k0); [ contradiction | reflexivity ].
    + destruct (Z.eqb_spec k' k0); [ reflexivity | exact IH ].
Qed.

Lemma has_both_axes_set (d : dict) (k v : Z) :
  has_both_axes d -> has_both_axes (dict_set d k v).
Proof.
  intros (x & y & Hx & Hy). unfold has_both_axes.
  destruct (Z.eq_dec _EVENT_CODE_RIGHT_X_AXIS k) as [Ex | Nx];
    destruct (Z.eq_dec _EVENT_CODE_RIGHT_Y_AXIS k) as [Ey | Ny].
  - subst k. discriminate Ey.
  - subst k. exists v, y. rewrite dict_get_set_same, dict_get_set_other by assumption.
    split; [ reflexivity | assumption ].
  - subst k. exists x, v. rewrite dict_get_set_same, dict_get_set_other by assumption.
    split; [ assumption | reflexivity ].
  - exists x, y. rewrite !dict_get_set_other by assumption. split; assumption.
Qed.

Lemma init_ok (timeout nth : Z) (ix iy : bool) (g : t) :
  init timeout nth ix iy = Py.Ok g ->
  accept_every_nth_event g = nth /\ received_event_count g = 0%Z
  /\ has_both_axes (last_event_values g) /\ _xy_vector_queue g = [].
Proof.
  unfold init. destruct (negb _); [ discriminate | ].
  intros E. injection E as <-. cbn. repeat split.
  exists 0%Z, 0%Z. split; reflexivity.
Qed.

(** The constructor rejects a connection timeout that is neither positive
    nor [_TIMEOUT_INF]. *)
Lemma init_timeout_check (timeout nth : Z) (ix iy : bool) :
  (timeout <= 0)%Z -> timeout <> _TIMEOUT_INF ->
  init timeout nth ix iy = Py.Raise Py.ValueError.
Proof.
  intros Hle Hne. unfold init.
  destruct (Z.eqb_spec timeout _TIMEOUT_INF); [ contradiction | ].
  destruct (Z.ltb_spec 0 timeout); [ lia | reflexivity ].
Qed.

(** One event: the counter advances; the event is processed (its axis value
    stored rebased, the two-axis vector appended to the queue) exactly when
    [accepts] holds, and otherwise nothing else changes. *)
Lemma handle_event_spec (g : t) (ev : event) :
  accept_every_nth_event g <> 0%Z ->
  has_both_axes (last_event_values g) ->
  exists g2,
    handle_event g ev = Py.Ok g2
    /\ accept_every_nth_event g2 = accept_every_nth_event g
    /\ received_event_count g2 = (received_event_count g + 1)%Z
    /\ has_both_axes (last_event_values g2)
    /\ if accepts g (received_event_count g + 1) ev
       then exists v,
           _xy_vector_queue g2 = _xy_vector_queue g ++ [v]
           /\ dict_get (last_event_values g2) (ev_code ev) = Some (ev_value ev - 2 ^ 15)%Z
           /\ _create_xy_vector g2 = Py.Ok v
       else _xy_vector_queue g2 = _xy_vector_queue g
            /\ last_event_values g2 = last_event_values g.
Proof.
  intros HN Hw. unfold handle_event.
  destruct (Z.eqb_spec (accept_every_nth_event g) 0); [ contradiction | ].
  destruct (accepts g (received_event_count g + 1) ev) eqn:A.
  - pose proof (has_both_axes_set _ (ev_code ev) (ev_value ev - 2 ^ 15) Hw) as Hw'.
    destruct Hw' as (x & y & Hx & Hy).
    unfold _create_xy_vector at 1. cbn [last_event_values]. rewrite Hx, Hy.
    cbn [Py.bind]. eexists. split; [ reflexivity | ].
    cbn [accept_every_nth_event received_event_count last_event_values _xy_vector_queue].
    repeat split.
    + exists x, y. split; assumption.
    + exists (x, y). repeat split.
      * apply dict_get_set_same.
      * unfold _create_xy_vector. cbn [last_event_values]. now rewrite Hx, Hy.
  - eexists. split; [ reflexivity | ].
    cbn [accept_every_nth_event received_event_count last_event_values _xy_vector_queue].
    repeat split. assumption.
Qed.

(** [run] never raises with a nonzero [accept_every_nth_event], and counts
    every event it receives. *)
Lemma run_spec (evs : list event) (g : t) :
  accept_every_nth_event g <> 0%Z ->
  has_both_axes (last_event_values g) ->
  exists g1,
    run g evs = Py.Ok g1
    /\ accept_every_nth_event g1 = accept_every_nth_event g
    /\ received_event_count g1 = (received_event_count g + Z.of_nat (length evs))%Z
    /\ has_both_axes (last_event_values g1).
Proof.
  revert g. induction evs as [ | ev rest IH ]; intros g HN Hw.
  - exists g. cbn. repeat split; [ lia | assumption ].
  - destruct (handle_event_spec g ev HN Hw) as (g2 & E & N2 & C2 & W2 & _).
    destruct (IH g2) as (g1 & E1 & N1 & C1 & W1); [ congruence | assumption | ].
    exists g1. cbn [run]. rewrite E. cbn [Py.bind].
    repeat split; [ assumption | congruence | | assumption ].
    rewrite C1, C2. cbn [length]. lia.
Qed.

End Pad.

(** C5, as the code has it.  [received_event_count] counts every event the
    device delivers, matching or not.  With a nonzero
    [accept_every_nth_event = nth], the thread never raises, and the [j]-th
    received event is processed (its axis value stored, rebased by 2^15, and
    the two-axis vector appended to the queue) exactly when [j] is a multiple
    of [nth] and the event passes the type and code filters; any other event
    changes neither the queue nor the stored axis values. *)
Theorem every_nth_received_event_is_processed
  (timeout nth : Z) (ix iy : bool) (g : Gamepad.t)
  (evs : list Gamepad.event) (ev : Gamepad.event) :
  Gamepad.init timeout nth ix iy = Py.Ok g ->
  nth <> 0%Z ->
  exists g1 g2,
    Gamepad.run g evs = Py.Ok g1
    /\ Gamepad.handle_event g1 ev = Py.Ok g2
    /\ Gamepad.run g (evs ++ [ev]) = Py.Ok g2
    /\ let j := (Z.of_nat (length evs) + 1)%Z in
       if Z.eqb (j mod nth) 0 && matches_filters ev
       then exists v,
           Gamepad._xy_vector_queue g2 = Gamepad._xy_vector_queue g1 ++ [v]
           /\ Gamepad.dict_get (Gamepad.last_event_values g2) (Gamepad.ev_code ev)
              = Some (Gamepad.ev_value ev - 2 ^ 15)%Z
           /\ Gamepad._create_xy_vector g2 = Py.Ok v
       else Gamepad._xy_vector_queue g2 = Gamepad._xy_vector_queue g1
            /\ Gamepad.last_event_values g2 = Gamepad.last_event_values g1.
Proof.
  intros Hi HN.
  destruct (init_ok _ _ _ _ _ Hi) as (EN & EC & W & _).
  destruct (run_spec evs g) as (g1 & E1 & N1 & C1 & W1); [ congruence | assumption | ].
  destruct (handle_event_spec g1 ev) as (g2 & E2 & _ & _ & _ & P);
    [ congruence | assumption | ].
  exists g1, g2. split; [ exact E1 | split; [ exact E2 | split ] ].
  - clear P. revert E1 E2. generalize g. clear.
    induction evs as [ | e rest IH ]; intros g E1 E2; cbn in *.
    + injection E1 as <-. rewrite E2. reflexivity.
    + destruct (Gamepad.handle_event g e); cbn in *; [ eauto | discriminate ].
  - cbv zeta. unfold Gamepad.accepts in P.
    rewrite C1, EC, N1, EN, Z.add_0_l, <- andb_assoc in P. exact P.
Qed.

(** With [accept_every_nth_event = 3], the third received stick event is
    processed. *)
Lemma every_nth_received_event_is_processed_witness :
  let stick := Gamepad.mk_event 3 2 40000 in
  let pad := Gamepad.mk (-1) [] [(2%Z, 0%Z); (5%Z, 0%Z)] false false 3 0 in
  exists g1 g2,
    Gamepad.run pad [stick; stick] = Py.Ok g1
    /\ Gamepad.handle_event g1 stick = Py.Ok g2
    /\ Gamepad.run pad ([stick; stick] ++ [stick]) = Py.Ok g2
    /\ exists v,
        Gamepad._xy_vector_queue g2 = Gamepad._xy_vector_queue g1 ++ [v]
        /\ Gamepad.dict_get (Gamepad.last_event_values g2) 2 = Some (40000 - 2 ^ 15)%Z
        /\ Gamepad._create_xy_vector g2 = Py.Ok v.
Proof.
  assert (HN : 3%Z <> 0%Z) by discriminate.
  exact (every_nth_received_event_is_processed (-1) 3 false false
           (Gamepad.mk (-1) [] [(2%Z, 0%Z); (5%Z, 0%Z)] false false 3 0)
           [Gamepad.mk_event 3 2 40000; Gamepad.mk_event 3 2 40000]
           (Gamepad.mk_event 3 2 40000) eq_refl HN).
Defined.

(** C5 fails as stated: the counter counts every received event, not only
    the matching ones.  With [accept_every_nth_event = 2], an event of another
    type followed by a stick event gets the stick event processed, although it
    is the first matching event; and in stick, other, stick no event is
    processed, although two matching events arrived. *)
Lemma kth_matching_event_counterexample :
  let other := Gamepad.mk_event 1 2 40000 in
  let stick := Gamepad.mk_event 3 2 40000 in
  let pad := Gamepad.mk (-1) [] [(2%Z, 0%Z); (5%Z, 0%Z)] false false 2 0 in
  Gamepad.init (-1) 2 false false = Py.Ok pad
  /\ matches_filters other = false
  /\ matches_filters stick = true
  /\ (exists g, Gamepad.run pad [other; stick] = Py.Ok g
                /\ Gamepad._xy_vector_queue g = [(7232%Z, 0%Z)])
  /\ (exists g, Gamepad.run pad [stick; other; stick] = Py.Ok g
                /\ Gamepad._xy_vector_queue g = []).
Proof.
  cbv zeta. repeat split; try reflexivity; eexists; split; reflexivity.
Qed.

(** ** End to end: from an event to the motors *)

(** A value exactly on an integer rounds to it. *)
Lemma round_IZR (z : Z) : Py.round (IZR z) = z.
Proof. apply round_eval. lra. Qed.

(** The effect of [change_throttle] on a motor mounted the normal way. *)
Lemma change_throttle_forward (m : Motor.t) (thr : R) :
  Motor.is_reversed m = false -> 0 <= thr ->
  Motor.throttle (Motor.change_throttle m thr) = thr
  /\ Motor.pwm_positive (Motor.change_throttle m thr) = Py.round (thr * 100)
  /\ Motor.pwm_negative (Motor.change_throttle m thr) = 0%Z.
Proof.
  intros Hr Ht. unfold Motor.change_throttle. rewrite Hr.
  rewrite (Rabs_pos_eq thr) by assumption. cmp. cbn. repeat split.
Qed.

(** The effect of [change_throttle] on a motor mounted mirrored: a positive
    throttle ends up on the negative channel. *)
Lemma change_throttle_reversed (m : Motor.t) (thr : R) :
  Motor.is_reversed m = true -> 0 < thr ->
  Motor.throttle (Motor.change_throttle m thr) = - thr
  /\ Motor.pwm_positive (Motor.change_throttle m thr) = 0%Z
  /\ Motor.pwm_negative (Motor.change_throttle m thr) = Py.round (thr * 100).
Proof.
  intros Hr Ht. unfold Motor.change_throttle. rewrite Hr.
  replace (Rabs (thr * -1)) with thr
    by (rewrite Rabs_left by lra; lra).
  cmp. cbn. repeat split. lra.
Qed.

(** C9.  The event (type 3, code 5, value 0) makes a fresh gamepad with the
    y axis inverted publish the raw vector (0, -32768); the coordinator's read
    returns (0, 32768); its angle is 90 degrees and its normalized length 1;
    both modifiers are 1; and a controller with curve, gate and limit off and
    scale [scale] hands both motors the throttle [scale * 1].  For a positive
    scale both motors then drive forward with one and the same duty cycle:
    the mirrored left motor on its negative channel, the right motor on its
    positive channel. *)
Theorem end_to_end_forward (scale : R) :
  let ctrl := MotorController.init false None scale None in
  exists pad pad1 pad2 l r ctrl',
    Gamepad.init Gamepad._TIMEOUT_INF 1 false true = Py.Ok pad
    /\ Gamepad.handle_event pad (Gamepad.mk_event 3 5 0) = Py.Ok pad1
    /\ Gamepad._xy_vector_queue pad1 = [(0%Z, (-32768)%Z)]
    /\ Gamepad.get_xy_vector_from_queue pad1 false = Some (Some (0%Z, 32768%Z), pad2)
    /\ MotorController.calc_vector_angle (0%Z, 32768%Z) = 90
    /\ MotorController.calc_normalized_vector_length (0%Z, 32768%Z) = 1
    /\ MotorController.calc_left_throttle_mod 90 = Py.Ok (Some 1)
    /\ MotorController.calc_right_throttle_mod 90 = Py.Ok (Some 1)
    /\ MotorController.shaped_throttles ctrl (0%Z, 32768%Z) = Py.Ok (l, r)
    /\ l = scale * 1 /\ r = scale * 1
    /\ MotorController.handle_vector_input ctrl (0%Z, 32768%Z) = Py.Ok ctrl'
    /\ MotorController.left_motor ctrl'
       = Motor.change_throttle (MotorController.left_motor ctrl) l
    /\ MotorController.right_motor ctrl'
       = Motor.change_throttle (MotorController.right_motor ctrl) r
    /\ (0 < scale ->
        Motor.pwm_negative (MotorController.left_motor ctrl') = Py.round (scale * 100)
        /\ Motor.pwm_positive (MotorController.left_motor ctrl') = 0%Z
        /\ Motor.pwm_positive (MotorController.right_motor ctrl') = Py.round (scale * 100)
        /\ Motor.pwm_negative (MotorController.right_motor ctrl') = 0%Z).
Proof.
  cbv zeta.
  assert (S : MotorController.shaped_throttles
                (MotorController.init false None scale None) (0%Z, 32768%Z)
              = Py.Ok (scale * 1 * 1, scale * 1 * 1)).
  { unfold MotorController.shaped_throttles.
    rewrite calc_vector_angle_up by lia.
    rewrite left_mod_band3, right_mod_band4 by lra.
    rewrite calc_normalized_vector_length_full. reflexivity. }
  do 3 eexists. exists (scale * 1 * 1), (scale * 1 * 1). eexists.
  split; [ reflexivity | ].
  split; [ reflexivity | ].
  split; [ reflexivity | ].
  split; [ reflexivity | ].
  split; [ apply calc_vector_angle_up; lia | ].
  split; [ apply calc_normalized_vector_length_full | ].
  split; [ apply left_mod_band3; lra | ].
  split; [ apply right_mod_band4; lra | ].
  split; [ exact S | ].
  split; [ lra | ].
  split; [ lra | ].
  split; [ apply handle_vector_input_ok; exact S | ].
  cbn [MotorController.left_motor MotorController.right_motor].
  split; [ reflexivity | ].
  split; [ reflexivity | ].
  intros Hs.
  destruct (change_throttle_reversed
              (MotorController.left_motor (MotorController.init false None scale None))
              (scale * 1 * 1)) as (_ & Lp & Ln); [ reflexivity | lra | ].
  destruct (change_throttle_forward
              (MotorController.right_motor (MotorController.init false None scale None))
              (scale * 1 * 1)) as (_ & Rp & Rn); [ reflexivity | lra | ].
  rewrite Lp, Ln, Rp, Rn.
  replace (scale * 1 * 1 * 100) with (scale * 100) by lra.
  repeat split.
Qed.

(** With scale 1 both motors run at a duty cycle of 100 percent. *)
Lemma end_to_end_forward_witness :
  exists ctrl',
    MotorController.handle_vector_input
      (MotorController.init false None 1 None) (0%Z, 32768%Z) = Py.Ok ctrl'
    /\ Motor.pwm_negative (MotorController.left_motor ctrl') = 100%Z
    /\ Motor.pwm_positive (MotorController.right_motor ctrl') = 100%Z.
Proof.
  destruct (end_to_end_forward 1)
    as (pad & pad1 & pad2 & l & r & ctrl' & _ & _ & _ & _ & _ & _ & _ & _ & _ & _ & _
        & H & _ & _ & P).
  exists ctrl'. split; [ exact H | ].
  destruct P as (Ln & _ & Rp & _); [ lra | ].
  rewrite Ln, Rp. replace (1 * 100) with (IZR 100) by lra.
  rewrite round_IZR. split; reflexivity.
Defined.

(** ** The drive coordinator and standby *)

Section Standby.

Import Tadpole.

Lemma coordinator_steps_app (xs ys : list action) :
  coordinator_steps (xs ++ ys) = (coordinator_steps xs + coordinator_steps ys)%nat.
Proof. unfold coordinator_steps. rewrite filter_app, length_app. reflexivity. Qed.

(** A sample that is not positive leaves a false flag false. *)
Lemma sample_keeps_false (timeout : R) (g : BatteryGuard.t) (reading : Z) (now : R) :
  reading <> 1%Z ->
  BatteryGuard.is_battery_ok g = false ->
  BatteryGuard.is_battery_ok (BatteryGuard.sample timeout g reading now) = false.
Proof.
  intros NE Hf.
  destruct (BatteryGuard.is_battery_ok (BatteryGuard.sample timeout g reading now)) eqn:E;
    [ | reflexivity ].
  destruct (sample_not_positive timeout g reading now NE) as [_ K].
  rewrite (K E) in Hf. discriminate.
Qed.

(** The phases are preserved by every step that is not a positive sample. *)
Lemma gate_phase_step (w0 w : t) (k : nat) (a : action) :
  gate_phase w0 k w -> not_positive_action a ->
  gate_phase w0 (if is_coordinator a then S k else k) (step w a).
Proof.
  intros [Hf Hk] Ha. destruct a as [ | reading now | ev ]; cbn [is_coordinator step].
  - (* the coordinator *)
    unfold coordinator_step, gate_phase, set_pc.
    destruct k as [ | [ | k ] ]; destruct Hk as (Hp & Hc & Hm).
    + rewrite Hp, Hf. cbn. repeat split; assumption.
    + rewrite Hp. cbn. rewrite Hc, Hm. repeat split; assumption.
    + destruct (at_pc w) eqn:P; try discriminate.
      * rewrite Hf. cbn. repeat split; assumption.
      * destruct (Gamepad.get_xy_vector_from_queue (xbox_pad w) true) as [[? ?] | ];
          cbn; rewrite ?P; repeat split; assumption.
  - (* the battery guard *)
    split; [ apply sample_keeps_false; assumption | ].
    destruct k as [ | [ | k ] ]; exact Hk.
  - (* the gamepad *)
    destruct (Gamepad.handle_event (xbox_pad w) ev); (split; [ exact Hf | ]);
      destruct k as [ | [ | k ] ]; exact Hk.
Qed.

(** From the check with the flag false, along any schedule without a
    positive sample, the coordinator is in the phase given by the number of
    its own steps. *)
Lemma gate_phase_run (schedule : list action) (w : t) :
  at_pc w = AtCheck ->
  BatteryGuard.is_battery_ok (battery_guard w) = false ->
  no_positive_reading schedule ->
  gate_phase w (coordinator_steps schedule) (run w schedule).
Proof.
  intros Hp Hf. induction schedule as [ | a rest IH ] using rev_ind; intros Hs.
  - cbn. repeat split; assumption.
  - apply Forall_app in Hs. destruct Hs as [Hrest Ha].
    inversion Ha as [ | ? ? Ha' _ ]; subst.
    unfold run. rewrite fold_left_app. cbn [fold_left].
    rewrite coordinator_steps_app.
    pose proof (gate_phase_step w _ _ a (IH Hrest) Ha') as G.
    unfold coordinator_steps at 2. cbn [filter].
    fold (is_coordinator a).
    destruct (is_coordinator a); cbn [length];
      [ rewrite Nat.add_1_r | rewrite Nat.add_0_r ]; exact G.
Qed.

Lemma stop_stops (ctrl : MotorController.t) :
  Motor.stopped (MotorController.left_motor (MotorController.stop ctrl))
  /\ Motor.stopped (MotorController.right_motor (MotorController.stop ctrl)).
Proof. split; split; reflexivity. Qed.

(** In standby a blocking read that returns drops what it read: the vector
    leaves the queue, nothing reaches the motors. *)
Lemma standby_read_discards (w : t) (v : option (Z * Z)) (pad : Gamepad.t) :
  at_pc w = AtStandbyGet ->
  Gamepad.get_xy_vector_from_queue (xbox_pad w) true = Some (v, pad) ->
  coordinator_step w = mk (motor_ctrl w) pad (battery_guard w) AtStandbyCheck (calls w).
Proof. intros Hp Hg. unfold coordinator_step. rewrite Hp, Hg. reflexivity. Qed.

End Standby.

Lemma init_tadpole (now : R) : Tadpole.init now = Py.Ok (tadpole_at_start now).
Proof. reflexivity. Qed.

(** C1, as the code has it.  When the coordinator comes to its battery check
    with the flag false, then for as long as the flag remains false (no
    positive sample is taken), whatever else the three activities do: the
    coordinator stays at its gate; the only motor calls it makes are the two
    [stop] calls; after two of its own steps it is in the standby loop with
    both motors stopped; and a blocking read that returns there takes the
    vector off the queue and drops it, leaving motors and calls as they are. *)
Theorem standby_safety (w : Tadpole.t) (schedule : list Tadpole.action) :
  Tadpole.at_pc w = Tadpole.AtCheck ->
  BatteryGuard.is_battery_ok (Tadpole.battery_guard w) = false ->
  Tadpole.no_positive_reading schedule ->
  let w' := Tadpole.run w schedule in
  BatteryGuard.is_battery_ok (Tadpole.battery_guard w') = false
  /\ Tadpole.at_gate (Tadpole.at_pc w') = true
  /\ (Tadpole.calls w' = Tadpole.calls w
      \/ Tadpole.calls w' = Tadpole.calls w ++ [Tadpole.Stop Tadpole.Left;
                                                 Tadpole.Stop Tadpole.Right])
  /\ ((2 <= Tadpole.coordinator_steps schedule)%nat ->
      Tadpole.in_standby (Tadpole.at_pc w') = true
      /\ Tadpole.calls w' = Tadpole.calls w ++ [Tadpole.Stop Tadpole.Left;
                                                 Tadpole.Stop Tadpole.Right]
      /\ Motor.stopped (MotorController.left_motor (Tadpole.motor_ctrl w'))
      /\ Motor.stopped (MotorController.right_motor (Tadpole.motor_ctrl w')))
  /\ (forall v pad,
      Tadpole.at_pc w' = Tadpole.AtStandbyGet ->
      Gamepad.get_xy_vector_from_queue (Tadpole.xbox_pad w') true = Some (v, pad) ->
      Tadpole.coordinator_step w'
      = Tadpole.mk (Tadpole.motor_ctrl w') pad (Tadpole.battery_guard w')
          Tadpole.AtStandbyCheck (Tadpole.calls w')).
Proof.
  intros Hp Hf Hs w'.
  pose proof (gate_phase_run schedule w Hp Hf Hs) as [Hf' G]. fold w' in Hf', G.
  split; [ exact Hf' | ].
  destruct (Tadpole.coordinator_steps schedule) as [ | [ | k ] ];
    destruct G as (P & C & M).
  - split; [ rewrite P; reflexivity | ].
    split; [ left; exact C | ].
    split; [ intros K; lia | ].
    intros v pad K. rewrite P in K. discriminate.
  - split; [ rewrite P; reflexivity | ].
    split; [ left; exact C | ].
    split; [ intros K; lia | ].
    intros v pad K. rewrite P in K. discriminate.
  - split; [ destruct (Tadpole.at_pc w'); try discriminate; reflexivity | ].
    split; [ right; exact C | ].
    split.
    + intros _. rewrite M. destruct (stop_stops (Tadpole.motor_ctrl w)).
      repeat split; assumption.
    + intros v pad. apply standby_read_discards.
Qed.

(** From the start of the program: two stick events arrive, the coordinator
    takes four steps, the guard samples 0; only the two stops are called. *)
Lemma standby_safety_witness :
  let stick := Gamepad.mk_event 3 5 0 in
  let schedule :=
    [Tadpole.Coordinator; Tadpole.Source stick; Tadpole.Coordinator;
     Tadpole.Coordinator; Tadpole.Source stick; Tadpole.Monitor 0 3;
     Tadpole.Coordinator] in
  Tadpole.calls (Tadpole.run (tadpole_at_start 0) schedule)
  = [Tadpole.Stop Tadpole.Left; Tadpole.Stop Tadpole.Right]
  /\ Tadpole.in_standby (Tadpole.at_pc (Tadpole.run (tadpole_at_start 0) schedule)) = true.
Proof.
  cbv zeta.
  assert (Hs : Tadpole.no_positive_reading
                 [Tadpole.Coordinator; Tadpole.Source (Gamepad.mk_event 3 5 0);
                  Tadpole.Coordinator; Tadpole.Coordinator;
                  Tadpole.Source (Gamepad.mk_event 3 5 0); Tadpole.Monitor 0 3;
                  Tadpole.Coordinator]).
  { repeat constructor. discriminate. }
  destruct (standby_safety (tadpole_at_start 0) _ eq_refl eq_refl Hs)
    as (_ & _ & _ & K & _).
  destruct K as (P & C & _); [ cbn; lia | ].
  split; [ exact C | exact P ].
Defined.

(** C10.  A fresh battery guard has its flag false, so a [Tadpole] starts
    with the flag false; until the first positive sample, whatever else
    happens, the flag stays false, the coordinator stays at its gate (in the
    standby loop from its second step on), no [change_throttle] call is made,
    both motors stay stopped, and every vector read is dropped. *)
Theorem no_drive_before_first_positive_reading
  (now : R) (w : Tadpole.t) (schedule : list Tadpole.action) :
  Tadpole.init now = Py.Ok w ->
  Tadpole.no_positive_reading schedule ->
  let w' := Tadpole.run w schedule in
  BatteryGuard.is_battery_ok (BatteryGuard.init now) = false
  /\ BatteryGuard.is_battery_ok (Tadpole.battery_guard w) = false
  /\ BatteryGuard.is_battery_ok (Tadpole.battery_guard w') = false
  /\ Tadpole.at_gate (Tadpole.at_pc w') = true
  /\ ((2 <= Tadpole.coordinator_steps schedule)%nat ->
      Tadpole.in_standby (Tadpole.at_pc w') = true)
  /\ forallb (fun c => negb (Tadpole.is_change c)) (Tadpole.calls w') = true
  /\ Motor.stopped (MotorController.left_motor (Tadpole.motor_ctrl w'))
  /\ Motor.stopped (MotorController.right_motor (Tadpole.motor_ctrl w'))
  /\ (forall v pad,
      Tadpole.at_pc w' = Tadpole.AtStandbyGet ->
      Gamepad.get_xy_vector_from_queue (Tadpole.xbox_pad w') true = Some (v, pad) ->
      Tadpole.coordinator_step w'
      = Tadpole.mk (Tadpole.motor_ctrl w') pad (Tadpole.battery_guard w')
          Tadpole.AtStandbyCheck (Tadpole.calls w')).
Proof.
  intros Hi Hs w'. rewrite init_tadpole in Hi. injection Hi as <-.
  pose proof (gate_phase_run schedule (tadpole_at_start now) eq_refl eq_refl Hs)
    as [Hf' G].
  fold w' in Hf', G.
  split; [ reflexivity | ]. split; [ reflexivity | ]. split; [ exact Hf' | ].
  destruct (Tadpole.coordinator_steps schedule) as [ | [ | k ] ];
    destruct G as (P & C & M); rewrite C, M.
  - rewrite P. repeat split; try reflexivity; try lia.
    intros v pad K. discriminate.
  - rewrite P. repeat split; try reflexivity; try lia.
    intros v pad K. discriminate.
  - split; [ destruct (Tadpole.at_pc w'); try discriminate; reflexivity | ].
    split; [ intros _; exact P | ].
    split; [ reflexivity | ].
    split; [ split; reflexivity | ].
    split; [ split; reflexivity | ].
    intros v pad Hp Hg. rewrite <- C, <- M.
    exact (standby_read_discards w' v pad Hp Hg).
Qed.

(** Started at time 0, with zero readings at 1 s and 2 s and stick events in
    between, the vehicle has not moved. *)
Lemma no_drive_before_first_positive_reading_witness :
  let stick := Gamepad.mk_event 3 5 0 in
  let schedule :=
    [Tadpole.Source stick; Tadpole.Coordinator; Tadpole.Monitor 0 1;
     Tadpole.Coordinator; Tadpole.Coordinator; Tadpole.Coordinator;
     Tadpole.Source stick; Tadpole.Monitor 0 2; Tadpole.Coordinator] in
  let w' := Tadpole.run (tadpole_at_start 0) schedule in
  forallb (fun c => negb (Tadpole.is_change c)) (Tadpole.calls w') = true
  /\ Motor.stopped (MotorController.left_motor (Tadpole.motor_ctrl w'))
  /\ Motor.stopped (MotorController.right_motor (Tadpole.motor_ctrl w')).
Proof.
  cbv zeta.
  assert (Hs : Tadpole.no_positive_reading
                 [Tadpole.Source (Gamepad.mk_event 3 5 0); Tadpole.Coordinator;
                  Tadpole.Monitor 0 1; Tadpole.Coordinator; Tadpole.Coordinator;
                  Tadpole.Coordinator; Tadpole.Source (Gamepad.mk_event 3 5 0);
                  Tadpole.Monitor 0 2; Tadpole.Coordinator]).
  { repeat constructor; discriminate. }
  destruct (no_drive_before_first_positive_reading 0 (tadpole_at_start 0) _
              (init_tadpole 0) Hs)
    as (_ & _ & _ & _ & _ & C & L & R & _).
  split; [ exact C | split; [ exact L | exact R ] ].
Defined.

(** The default controller drives both sides at 1 on a full forward vector. *)
Lemma default_full_forward :
  MotorController.shaped_throttles MotorController.default (0%Z, 32768%Z)
  = Py.Ok (1 * 1 * 1, 1 * 1 * 1).
Proof.
  unfold MotorController.shaped_throttles.
  rewrite calc_vector_angle_up by lia.
  rewrite left_mod_band3, right_mod_band4 by lra.
  rewrite calc_normalized_vector_length_full.
  unfold MotorController.default, MotorController.init.
  cbn [Py.bind MotorController.throttle_scale MotorController.enable_throttle_curve
       MotorController.throttle_gate_threshold MotorController.throttle_limit].
  unfold MotorController._apply_throttle_gate, MotorController._apply_throttle_limiting.
  rewrite (Rabs_pos_eq (1 * 1)) by lra.
  destruct (ltb_spec (1 * 1) (1 / 10)); [ exfalso; lra | ].
  rewrite (Rabs_pos_eq (1 * 1)) by lra.
  destruct (ltb_spec 1 (1 * 1)); [ exfalso; lra | ].
  reflexivity.
Qed.

Lemma run_cons (w : Tadpole.t) (a : Tadpole.action) (rest : list Tadpole.action) :
  Tadpole.run w (a :: rest) = Tadpole.run (Tadpole.step w a) rest.
Proof. reflexivity. Qed.

(** Take the next step of a schedule from an explicit state. *)
Ltac next_step :=
  rewrite run_cons;
  cbn [Tadpole.step Tadpole.coordinator_step Tadpole.set_pc
       Tadpole.motor_ctrl Tadpole.xbox_pad Tadpole.battery_guard
       Tadpole.at_pc Tadpole.calls BatteryGuard.is_battery_ok negb].

Ltac early := cbn [BatteryGuard._last_ok_time]; unfold config.LOW_BATTERY_TIMEOUT; lra.

(** C1 fails as stated, by a race between the check and the call.  After a
    positive sample at 1 s and zero samples up to 6 s the flag is still set;
    the coordinator passes its check; the zero sample at 7 s clears the flag;
    the coordinator, already past the check, then reads the waiting vector and
    applies it: with the flag false throughout these two steps, both motors
    are handed the throttle 1 and run at a duty cycle of 100 percent. *)
Lemma standby_race_counterexample :
  let before :=
    [Tadpole.Monitor 1 1; Tadpole.Monitor 0 2; Tadpole.Monitor 0 3;
     Tadpole.Monitor 0 4; Tadpole.Monitor 0 5; Tadpole.Monitor 0 6;
     Tadpole.Source (Gamepad.mk_event 3 5 0); Tadpole.Coordinator;
     Tadpole.Monitor 0 7] in
  let w1 := Tadpole.run (tadpole_at_start 0) before in
  let w2 := Tadpole.run w1 [Tadpole.Coordinator] in
  let w3 := Tadpole.run w2 [Tadpole.Coordinator] in
  BatteryGuard.is_battery_ok (Tadpole.battery_guard w1) = false
  /\ BatteryGuard.is_battery_ok (Tadpole.battery_guard w2) = false
  /\ BatteryGuard.is_battery_ok (Tadpole.battery_guard w3) = false
  /\ Tadpole.calls w1 = []
  /\ (exists l r,
      Tadpole.calls w3 = [Tadpole.ChangeThrottle Tadpole.Left l;
                          Tadpole.ChangeThrottle Tadpole.Right r]
      /\ l = 1 /\ r = 1)
  /\ Motor.pwm_negative (MotorController.left_motor (Tadpole.motor_ctrl w3)) = 100%Z
  /\ Motor.pwm_positive (MotorController.right_motor (Tadpole.motor_ctrl w3)) = 100%Z.
Proof.
  cbv zeta.
  assert (E1 : Tadpole.run (tadpole_at_start 0)
                 [Tadpole.Monitor 1 1; Tadpole.Monitor 0 2; Tadpole.Monitor 0 3;
                  Tadpole.Monitor 0 4; Tadpole.Monitor 0 5; Tadpole.Monitor 0 6;
                  Tadpole.Source (Gamepad.mk_event 3 5 0); Tadpole.Coordinator;
                  Tadpole.Monitor 0 7]
               = Tadpole.mk MotorController.default
                   (Gamepad.mk (-1) [(0%Z, (-32768)%Z)]
                      [(2%Z, 0%Z); (5%Z, (-32768)%Z)] false true 1 1)
                   (BatteryGuard.mk false 1 0) Tadpole.AtFetch []).
  { unfold tadpole_at_start.
    next_step. rewrite sample_positive.
    next_step. rewrite (sample_zero_early _ _ 2) by early.
    next_step. rewrite (sample_zero_early _ _ 3) by early.
    next_step. rewrite (sample_zero_early _ _ 4) by early.
    next_step. rewrite (sample_zero_early _ _ 5) by early.
    next_step. rewrite (sample_zero_early _ _ 6) by early.
    cbn [BatteryGuard.is_battery_ok BatteryGuard._last_ok_time].
    next_step.
    change (Gamepad.handle_event _ _)
      with (Py.Ok (Gamepad.mk (-1) [(0%Z, (-32768)%Z)]
                     [(2%Z, 0%Z); (5%Z, (-32768)%Z)] false true 1 1)).
    cbv iota beta.
    next_step.
    next_step. rewrite (sample_zero_late _ _ 7) by early.
    reflexivity. }
  rewrite E1.
  assert (E2 : Tadpole.run
                 (Tadpole.mk MotorController.default
                    (Gamepad.mk (-1) [(0%Z, (-32768)%Z)]
                       [(2%Z, 0%Z); (5%Z, (-32768)%Z)] false true 1 1)
                    (BatteryGuard.mk false 1 0) Tadpole.AtFetch [])
                 [Tadpole.Coordinator]
               = Tadpole.mk MotorController.default
                   (Gamepad.mk (-1) [] [(2%Z, 0%Z); (5%Z, (-32768)%Z)] false true 1 1)
                   (BatteryGuard.mk false 1 0) (Tadpole.AtHandle (0%Z, 32768%Z)) []).
  { reflexivity. }
  rewrite E2.
  assert (E3 : Tadpole.run
                 (Tadpole.mk MotorController.default
                    (Gamepad.mk (-1) [] [(2%Z, 0%Z); (5%Z, (-32768)%Z)] false true 1 1)
                    (BatteryGuard.mk false 1 0) (Tadpole.AtHandle (0%Z, 32768%Z)) [])
                 [Tadpole.Coordinator]
               = Tadpole.mk
                   (MotorController.mk
                      (Motor.change_throttle
                         (MotorController.left_motor MotorController.default) (1 * 1 * 1))
                      (Motor.change_throttle
                         (MotorController.right_motor MotorController.default) (1 * 1 * 1))
                      false (Some (1 / 10)) 1 (Some 1))
                   (Gamepad.mk (-1) [] [(2%Z, 0%Z); (5%Z, (-32768)%Z)] false true 1 1)
                   (BatteryGuard.mk false 1 0) Tadpole.AtCheck
                   [Tadpole.ChangeThrottle Tadpole.Left (1 * 1 * 1);
                    Tadpole.ChangeThrottle Tadpole.Right (1 * 1 * 1)]).
  { next_step.
    rewrite (handle_vector_input_ok _ _ _ _ default_full_forward).
    rewrite default_full_forward. reflexivity. }
  rewrite E3.
  cbn [Tadpole.battery_guard Tadpole.calls Tadpole.motor_ctrl
       BatteryGuard.is_battery_ok MotorController.left_motor
       MotorController.right_motor].
  destruct (change_throttle_reversed
              (MotorController.left_motor MotorController.default) (1 * 1 * 1))
    as (_ & _ & Ln); [ reflexivity | lra | ].
  destruct (change_throttle_forward
              (MotorController.right_motor MotorController.default) (1 * 1 * 1))
    as (_ & Rp & _); [ reflexivity | lra | ].
  rewrite Ln, Rp.
  replace (1 * 1 * 1 * 100) with (IZR 100) by lra. rewrite round_IZR.
  repeat split.
  exists (1 * 1 * 1), (1 * 1 * 1). repeat split; lra.
Qed.

(** * Further properties of the code *)

(** ** motor.py *)

Lemma round_between (x : R) (lo hi : Z) :
  IZR lo <= x <= IZR hi -> (lo <= Py.round x <= hi)%Z.
Proof.
  intros H. pose proof (round_nearest x) as N. apply abs_le_bounds in N.
  split.
  - apply Z.lt_pred_le, lt_IZR. unfold Z.pred. rewrite plus_IZR. lra.
  - apply Z.lt_succ_r, lt_IZR. unfold Z.succ. rewrite plus_IZR. lra.
Qed.

(** [Motor.change_throttle] never energises both channels of the H-bridge:
    whatever the throttle, one of the two duty cycles is 0 and neither is
    negative; the positive channel is the active one exactly when the
    throttle, after the reversal, is not negative. *)
Theorem change_throttle_one_channel (m : Motor.t) (thr : R) :
  let m' := Motor.change_throttle m thr in
  (Motor.pwm_positive m' = 0%Z \/ Motor.pwm_negative m' = 0%Z)
  /\ (0 <= Motor.pwm_positive m')%Z /\ (0 <= Motor.pwm_negative m')%Z
  /\ (0 <= Motor.throttle m' -> Motor.pwm_negative m' = 0%Z)
  /\ (Motor.throttle m' < 0 -> Motor.pwm_positive m' = 0%Z)
  /\ Motor.is_reversed m' = Motor.is_reversed m.
Proof.
  cbv zeta. unfold Motor.change_throttle.
  set (t := if Motor.is_reversed m then thr * -1 else thr).
  assert (D : (0 <= Py.round (Rabs t * 100))%Z).
  { pose proof (Rabs_pos t).
    pose proof (round_nearest (Rabs t * 100)) as N. apply abs_le_bounds in N.
    apply Z.lt_pred_le, lt_IZR. unfold Z.pred. rewrite plus_IZR. lra. }
  destruct (leb_spec 0 t); cbn [Motor.pwm_positive Motor.pwm_negative Motor.throttle
                                Motor.is_reversed].
  - repeat split; auto; try lia. intros. lra.
  - repeat split; auto; try lia. intros. lra.
Qed.

(** A throttle in [-1, 1] gives duty cycles that are valid percentages. *)
Theorem change_throttle_duty_range (m : Motor.t) (thr : R) :
  -1 <= thr <= 1 ->
  (0 <= Motor.pwm_positive (Motor.change_throttle m thr) <= 100)%Z
  /\ (0 <= Motor.pwm_negative (Motor.change_throttle m thr) <= 100)%Z.
Proof.
  intros H. unfold Motor.change_throttle.
  set (t := if Motor.is_reversed m then thr * -1 else thr).
  assert (A : 0 <= Rabs t <= 1).
  { split; [ apply Rabs_pos | ]. apply Rabs_le. subst t.
    destruct (Motor.is_reversed m); lra. }
  assert (D : (0 <= Py.round (Rabs t * 100) <= 100)%Z) by (apply round_between; lra).
  destruct (0 <=? t); cbn [Motor.pwm_positive Motor.pwm_negative]; lia.
Qed.

Lemma change_throttle_duty_range_witness :
  (0 <= Motor.pwm_positive
          (Motor.change_throttle (Motor.init 13 6 true) (-3 / 4)) <= 100)%Z
  /\ (0 <= Motor.pwm_negative
             (Motor.change_throttle (Motor.init 13 6 true) (-3 / 4)) <= 100)%Z.
Proof. apply (change_throttle_duty_range (Motor.init 13 6 true) (-3 / 4)). lra. Defined.

(** Mounting a motor reversed swaps its two channels: the same throttle
    gives a reversed motor on its negative channel what it gives a normal
    motor on its positive channel, and the other way round. *)
Theorem reversed_motor_swaps_channels (pos neg : Z) (thr : R) :
  let normal := Motor.change_throttle (Motor.init pos neg false) thr in
  let mirrored := Motor.change_throttle (Motor.init pos neg true) thr in
  Motor.pwm_positive mirrored = Motor.pwm_negative normal
  /\ Motor.pwm_negative mirrored = Motor.pwm_positive normal
  /\ Motor.throttle mirrored = - Motor.throttle normal.
Proof.
  cbv zeta. unfold Motor.change_throttle, Motor.init. cbn [Motor.is_reversed].
  replace (Rabs (thr * -1)) with (Rabs thr)
    by (replace (thr * -1) with (- thr) by lra; symmetry; apply Rabs_Ropp).
  destruct (Req_dec thr 0) as [Z0 | NZ].
  - subst thr. rewrite Rabs_R0.
    replace (0 * 100) with (IZR 0) by lra. rewrite round_IZR.
    replace (0 * -1) with 0 by lra.
    destruct (leb_spec 0 0); [ | exfalso; lra ].
    cbn. repeat split. lra.
  - destruct (leb_spec 0 thr); destruct (leb_spec 0 (thr * -1)); try (exfalso; lra);
      cbn; repeat split; lra.
Qed.

(** ** motor_controller.py: gate and limit *)

(** The gate zeroes exactly the throttles whose magnitude is below the
    threshold and passes every other one unchanged; it never increases a
    magnitude, and gating twice is gating once. *)
Theorem throttle_gate_deadzone (threshold thr : R) :
  (Rabs thr < threshold -> MotorController._apply_throttle_gate threshold thr = 0)
  /\ (threshold <= Rabs thr -> MotorController._apply_throttle_gate threshold thr = thr)
  /\ Rabs (MotorController._apply_throttle_gate threshold thr) <= Rabs thr
  /\ MotorController._apply_throttle_gate threshold
       (MotorController._apply_throttle_gate threshold thr)
     = MotorController._apply_throttle_gate threshold thr.
Proof.
  unfold MotorController._apply_throttle_gate.
  pose proof (Rabs_pos thr) as P.
  destruct (ltb_spec (Rabs thr) threshold) as [L | G].
  - repeat split; try reflexivity; try (intros; lra).
    + rewrite Rabs_R0. exact P.
    + rewrite Rabs_R0. destruct (ltb_spec 0 threshold); [ reflexivity | exfalso; lra ].
  - repeat split; try reflexivity; try (intros; lra).
    destruct (ltb_spec (Rabs thr) threshold); [ exfalso; lra | reflexivity ].
Qed.

Lemma limiting_pass (limit thr : R) :
  Rabs thr <= limit -> MotorController._apply_throttle_limiting limit thr = thr.
Proof.
  intros H. unfold MotorController._apply_throttle_limiting.
  destruct (ltb_spec limit (Rabs thr)); [ exfalso; lra | reflexivity ].
Qed.

Lemma limiting_high (limit thr : R) :
  0 <= limit -> limit < thr ->
  MotorController._apply_throttle_limiting limit thr = limit.
Proof.
  intros Hl H. unfold MotorController._apply_throttle_limiting, Py.copysign.
  rewrite (Rabs_pos_eq thr) by lra.
  destruct (ltb_spec limit thr); [ | exfalso; lra ].
  destruct (ltb_spec thr 0); [ exfalso; lra | ].
  apply Rabs_pos_eq. assumption.
Qed.

Lemma limiting_low (limit thr : R) :
  0 <= limit -> thr < - limit ->
  MotorController._apply_throttle_limiting limit thr = - limit.
Proof.
  intros Hl H. unfold MotorController._apply_throttle_limiting, Py.copysign.
  rewrite (Rabs_left thr) by lra.
  destruct (ltb_spec limit (- thr)); [ | exfalso; lra ].
  destruct (ltb_spec thr 0); [ | exfalso; lra ].
  rewrite Rabs_pos_eq by assumption. reflexivity.
Qed.

(** With a limit that is not negative, the limiting stage keeps the sign of
    the throttle and cuts its magnitude to the limit: the result has
    magnitude [min |thr| limit], is the input itself when the input is within
    the limit, and limiting twice is limiting once. *)
Theorem throttle_limit_clamps (limit thr : R) :
  0 <= limit ->
  let out := MotorController._apply_throttle_limiting limit thr in
  Rabs out = Rmin (Rabs thr) limit
  /\ 0 <= out * thr
  /\ (Rabs thr <= limit -> out = thr)
  /\ (limit < thr -> out = limit)
  /\ (thr < - limit -> out = - limit)
  /\ MotorController._apply_throttle_limiting limit out = out.
Proof.
  intros Hl. cbv zeta.
  split; [ | split; [ | split; [ apply limiting_pass | split;
    [ now apply limiting_high | split; [ now apply limiting_low | ] ] ] ] ].
  - destruct (Rlt_dec limit thr) as [H | H]; [ | destruct (Rlt_dec thr (- limit)) as [L | L] ].
    + rewrite limiting_high, (Rabs_pos_eq thr), (Rabs_pos_eq limit), Rmin_right by lra.
      reflexivity.
    + rewrite limiting_low, (Rabs_left thr), Rabs_Ropp, (Rabs_pos_eq limit), Rmin_right
        by lra.
      reflexivity.
    + assert (A : Rabs thr <= limit) by (apply Rabs_le; lra).
      rewrite limiting_pass, Rmin_left by assumption. reflexivity.
  - destruct (Rlt_dec limit thr) as [H | H]; [ | destruct (Rlt_dec thr (- limit)) as [L | L] ].
    + rewrite limiting_high by lra. nra.
    + rewrite limiting_low by lra. nra.
    + rewrite limiting_pass by (apply Rabs_le; lra). nra.
  - apply limiting_pass.
    destruct (Rlt_dec limit thr) as [H | H]; [ | destruct (Rlt_dec thr (- limit)) as [L | L] ].
    + rewrite limiting_high by lra. rewrite Rabs_pos_eq; lra.
    + rewrite limiting_low by lra. rewrite Rabs_Ropp, Rabs_pos_eq; lra.
    + rewrite limiting_pass by (apply Rabs_le; lra). apply Rabs_le; lra.
Qed.

Lemma throttle_limit_clamps_witness :
  MotorController._apply_throttle_limiting 1 (-3 / 2) = - 1.
Proof.
  assert (H : 0 <= 1) by lra.
  apply (proj1 (proj2 (proj2 (proj2 (proj2 (throttle_limit_clamps 1 (-3 / 2) H)))))).
  lra.
Defined.



(** ** motor_controller.py: length, angle and curve *)

Lemma sqrt_2_30 : sqrt (IZR (2 ^ 30)) = 32768.
Proof.
  replace (IZR (2 ^ 30)) with (32768 * 32768)
    by (change (2 ^ 30)%Z with 1073741824%Z; lra).
  apply sqrt_square. lra.
Qed.

Lemma squares_nonneg (x y : Z) : (0 <= x ^ 2 + y ^ 2)%Z.
Proof. nia. Qed.

(** The normalized length lies in [0, 1]; it is clamped to exactly 1 for
    every vector whose squared norm is at least 2^30 (the square of
    [MAX_ABS_AXIS_VALUE]), is the plain quotient below that, and is 0 only for
    the zero vector. *)
Theorem normalized_length_clamp (v : Z * Z) :
  let n := (fst v ^ 2 + snd v ^ 2)%Z in
  let len := MotorController.calc_normalized_vector_length v in
  0 <= len <= 1
  /\ ((2 ^ 30 <= n)%Z -> len = 1)
  /\ ((n < 2 ^ 30)%Z -> len = Py.sqrt (IZR n) / 32768 /\ len < 1)
  /\ (len = 0 <-> v = (0%Z, 0%Z)).
Proof.
  cbv zeta. destruct v as [x y]. cbn [fst snd].
  pose proof (squares_nonneg x y) as Hn. apply IZR_le in Hn.
  unfold MotorController.calc_normalized_vector_length, Py.sqrt. cbn [fst snd].
  replace (IZR MotorController.MAX_ABS_AXIS_VALUE) with 32768
    by (unfold MotorController.MAX_ABS_AXIS_VALUE; simpl; lra).
  set (n := (x ^ 2 + y ^ 2)%Z) in *.
  pose proof (sqrt_pos (IZR n)) as Sp.
  split; [ | split; [ | split ] ].
  - destruct (ltb_spec 1 (sqrt (IZR n) / 32768)); [ lra | ].
    split; [ unfold Rdiv; apply Rmult_le_pos; lra | lra ].
  - intros H. apply IZR_le in H.
    pose proof (sqrt_le_1_alt _ _ H) as S. rewrite sqrt_2_30 in S.
    destruct (ltb_spec 1 (sqrt (IZR n) / 32768)); lra.
  - intros H. apply IZR_lt in H.
    assert (S : sqrt (IZR n) < 32768).
    { rewrite <- sqrt_2_30. apply sqrt_lt_1_alt. lra. }
    destruct (ltb_spec 1 (sqrt (IZR n) / 32768)); lra.
  - split.
    + intros H.
      assert (S : sqrt (IZR n) = 0)
        by (destruct (ltb_spec 1 (sqrt (IZR n) / 32768)); lra).
      apply sqrt_eq_0 in S; [ | assumption ].
      apply eq_IZR in S. subst n.
      assert (x = 0%Z /\ y = 0%Z) as [-> ->] by nia. reflexivity.
    + intros H. injection H as -> ->. subst n. cbn [Z.pow Z.pow_pos Pos.iter Z.mul Z.add].
      rewrite sqrt_0.
      destruct (ltb_spec 1 (0 / 32768)); lra.
Qed.

(** The spec's two sample lengths: the zero vector has length 0 and the
    corner (32767, 32767) is clamped to 1. *)
Lemma normalized_length_clamp_witness :
  MotorController.calc_normalized_vector_length (32767%Z, 32767%Z) = 1.
Proof.
  apply (proj1 (proj2 (normalized_length_clamp (32767%Z, 32767%Z)))).
  cbn. lia.
Defined.

(** The angle of a vector along an axis or on the diagonal: 0 to the right,
    45 on the rising diagonal, 90 up, 180 to the left (never -180), -90 down,
    and 0 for the zero vector. *)
Theorem vector_angle_cardinal (k : Z) :
  (0 < k)%Z ->
  MotorController.calc_vector_angle (k, 0%Z) = 0
  /\ MotorController.calc_vector_angle (k, k) = 45
  /\ MotorController.calc_vector_angle (0%Z, k) = 90
  /\ MotorController.calc_vector_angle ((- k)%Z, 0%Z) = 180
  /\ MotorController.calc_vector_angle (0%Z, (- k)%Z) = -90
  /\ MotorController.calc_vector_angle (0%Z, 0%Z) = 0.
Proof.
  intros H. apply IZR_lt in H. pose proof PI_RGT_0 as P.
  unfold MotorController.calc_vector_angle, Py.atan2, Py.degrees. cbn [fst snd].
  rewrite !opp_IZR.
  repeat split; cmp.
  - unfold Rdiv at 1. rewrite Rmult_0_l, atan_0. lra.
  - replace (IZR k / IZR k) with 1 by (field; lra). rewrite atan_1. field. lra.
  - field. lra.
  - unfold Rdiv at 1. rewrite Rmult_0_l, atan_0. field. lra.
  - field. lra.
  - lra.
Qed.

Lemma vector_angle_cardinal_witness :
  MotorController.calc_vector_angle ((- 32768)%Z, 0%Z) = 180.
Proof.
  assert (H : (0 < 32768)%Z) by lia.
  exact (proj1 (proj2 (proj2 (proj2 (vector_angle_cardinal 32768 H))))).
Defined.


(** On [0, 1] the throttle curve desensitises: its result is never above the
    input and never reaches 1, and throttles up to 0.09 come out as 0. *)
Theorem throttle_curve_desensitises (t : R) :
  0 <= t <= 1 ->
  0 <= MotorController._apply_throttle_curve t <= t
  /\ MotorController._apply_throttle_curve t < 1
  /\ (t <= 9 / 100 -> MotorController._apply_throttle_curve t = 0).
Proof.
  intros H.
  pose proof (curve_poly_lower t H) as L. pose proof (curve_poly_upper t H) as U.
  assert (B : MotorController.throttle_curve_poly t <= t).
  { unfold MotorController.throttle_curve_poly.
    assert (H1 : 0 <= t * (1 - t)) by (apply Rmult_le_pos; lra).
    assert (H2 : 0 <= t * (1 - t) * (1 - t)) by (apply Rmult_le_pos; lra).
    lra. }
  destruct (Rle_dec 0 (MotorController.throttle_curve_poly t)) as [P | N].
  - rewrite curve_inside by lra. repeat split; try lra.
    intros S.
    assert (Z0 : MotorController.throttle_curve_poly t <= 0).
    { unfold MotorController.throttle_curve_poly.
      assert (H1 : 0 <= t * t) by nra.
      assert (H2 : 0 <= t * (9 / 100 - t)) by (apply Rmult_le_pos; lra).
      assert (H3 : 0 <= t * t * t) by (apply Rmult_le_pos; nra).
      lra. }
    lra.
  - rewrite curve_outside, round_near_zero by lra. repeat split; lra.
Qed.

Lemma throttle_curve_desensitises_witness :
  0 <= MotorController._apply_throttle_curve (1 / 2) <= 1 / 2
  /\ MotorController._apply_throttle_curve (1 / 2) < 1
  /\ (1 / 2 <= 9 / 100 -> MotorController._apply_throttle_curve (1 / 2) = 0).
Proof. apply (throttle_curve_desensitises (1 / 2)). lra. Defined.

(** ** motor_controller.py: the symmetries of differential steering *)

(** The shaper is the staged throttle times the two modifiers. *)
Lemma shaped_by_angle (self : MotorController.t) (v : Z * Z) (l r : R) :
  MotorController.calc_left_throttle_mod (MotorController.calc_vector_angle v)
  = Py.Ok (Some l) ->
  MotorController.calc_right_throttle_mod (MotorController.calc_vector_angle v)
  = Py.Ok (Some r) ->
  MotorController.shaped_throttles self v
  = Py.Ok (staged_throttle self (MotorController.calc_normalized_vector_length v) * l,
           staged_throttle self (MotorController.calc_normalized_vector_length v) * r).
Proof.
  intros Hl Hr. unfold MotorController.shaped_throttles. rewrite Hl, Hr. reflexivity.
Qed.

Lemma length_mirror (x y : Z) :
  MotorController.calc_normalized_vector_length ((- x)%Z, y)
  = MotorController.calc_normalized_vector_length (x, y).
Proof.
  unfold MotorController.calc_normalized_vector_length. cbn [fst snd].
  replace ((- x) ^ 2 + y ^ 2)%Z with (x ^ 2 + y ^ 2)%Z by nia. reflexivity.
Qed.

Lemma length_flip (x y : Z) :
  MotorController.calc_normalized_vector_length (x, (- y)%Z)
  = MotorController.calc_normalized_vector_length (x, y).
Proof.
  unfold MotorController.calc_normalized_vector_length. cbn [fst snd].
  replace (x ^ 2 + (- y) ^ 2)%Z with (x ^ 2 + y ^ 2)%Z by nia. reflexivity.
Qed.

Lemma atan_div_opp_r (y x : R) : x <> 0 -> atan (y / - x) = - atan (y / x).
Proof.
  intros H. replace (y / - x) with (- (y / x)) by (field; assumption). apply atan_opp.
Qed.

Lemma atan_div_opp_l (y x : R) : atan (- y / x) = - atan (y / x).
Proof.
  replace (- y / x) with (- (y / x)) by (unfold Rdiv; ring). apply atan_opp.
Qed.

(** Mirroring a nonzero vector about the y axis maps its angle [a] to
    [180 - a] in the upper half plane and to [-180 - a] in the lower. *)
Lemma atan2_mirror (y x : R) :
  ~ (x = 0 /\ y = 0) ->
  (0 <= y -> Py.atan2 y (- x) = PI - Py.atan2 y x /\ 0 <= Py.atan2 y x <= PI)
  /\ (y < 0 -> Py.atan2 y (- x) = - PI - Py.atan2 y x /\ - PI < Py.atan2 y x < 0).
Proof.
  intros NZ. pose proof PI_RGT_0 as P. pose proof (atan_bound (y / x)) as B.
  unfold Py.atan2.
  destruct (Rtotal_order x 0) as [Hx | [Hx | Hx]].
  - (* x < 0 *)
    assert (Hi : / x < 0) by now apply Rinv_lt_0_compat.
    rewrite atan_div_opp_r by lra.
    split; intros Hy.
    + assert (atan (y / x) <= 0) by (apply atan_nonpos; unfold Rdiv; nra).
      cmp; lra.
    + assert (0 < atan (y / x)) by (apply atan_pos; unfold Rdiv; nra).
      cmp; lra.
  - (* x = 0 *)
    subst x. rewrite Ropp_0.
    split; intros Hy; cmp; lra.
  - (* 0 < x *)
    assert (Hi : 0 < / x) by now apply Rinv_0_lt_compat.
    rewrite atan_div_opp_r by lra.
    split; intros Hy.
    + assert (0 <= atan (y / x)).
      { destruct Hy as [Hy | <-].
        - left. apply atan_pos. unfold Rdiv. nra.
        - unfold Rdiv. rewrite Rmult_0_l, atan_0. lra. }
      cmp; lra.
    + assert (atan (y / x) < 0).
      { rewrite <- atan_0. apply atan_increasing. unfold Rdiv. nra. }
      cmp; lra.
Qed.

(** Flipping a vector about the x axis negates its angle, except on the
    negative x axis, where the angle stays 180. *)
Lemma atan2_flip (y x : R) :
  ~ (y = 0 /\ x < 0) ->
  Py.atan2 (- y) x = - Py.atan2 y x /\ - PI < Py.atan2 y x < PI.
Proof.
  intros NZ. pose proof PI_RGT_0 as P. pose proof (atan_bound (y / x)) as B.
  unfold Py.atan2. rewrite atan_div_opp_l.
  destruct (Rtotal_order x 0) as [Hx | [Hx | Hx]].
  - assert (Hi : / x < 0) by now apply Rinv_lt_0_compat.
    destruct (Rtotal_order y 0) as [Hy | [Hy | Hy]].
    + assert (0 < atan (y / x)) by (apply atan_pos; unfold Rdiv; nra).
      cmp; lra.
    + exfalso. apply NZ. split; assumption.
    + assert (atan (y / x) < 0).
      { rewrite <- atan_0. apply atan_increasing. unfold Rdiv. nra. }
      cmp; lra.
  - subst x. cmp; lra.
  - cmp; lra.
Qed.

Lemma degrees_linear (a b : R) :
  Py.degrees (- a) = - Py.degrees a
  /\ Py.degrees (PI - a) = 180 - Py.degrees a
  /\ Py.degrees (- PI - a) = -180 - Py.degrees a.
Proof.
  unfold Py.degrees. pose proof PI_RGT_0.
  repeat split; field; lra.
Qed.

Lemma degrees_sign (r : R) :
  (0 <= r -> 0 <= Py.degrees r) /\ (r < 0 -> Py.degrees r < 0)
  /\ (r <= PI -> Py.degrees r <= 180) /\ (- PI < r -> -180 < Py.degrees r)
  /\ (r < PI -> Py.degrees r < 180).
Proof.
  unfold Py.degrees. pose proof PI_RGT_0 as P.
  assert (K : 0 < 180 / PI) by (apply Rdiv_lt_0_compat; lra).
  assert (E : PI * (180 / PI) = 180) by (field; lra).
  repeat split; intros; nra.
Qed.

(** The modifiers at the mirrored angle are the modifiers swapped. *)
Lemma mods_mirror (a a' l r : R) :
  (0 <= a <= 180 /\ a' = 180 - a) \/ (-180 < a < 0 /\ a' = -180 - a) ->
  MotorController.calc_left_throttle_mod a = Py.Ok (Some l) ->
  MotorController.calc_right_throttle_mod a = Py.Ok (Some r) ->
  MotorController.calc_left_throttle_mod a' = Py.Ok (Some r)
  /\ MotorController.calc_right_throttle_mod a' = Py.Ok (Some l).
Proof.
  intros H Hl Hr.
  assert (R0 : -180 < a <= 180) by (destruct H as [[? _] | [? _]]; lra).
  destruct (band_cases a R0) as [B | [B | [B | [B | [B | [B | B]]]]]];
    destruct H as [[Ha ->] | [Ha ->]]; try (exfalso; lra).
  - rewrite left_mod_band1 in Hl by lra. rewrite right_mod_band1 in Hr by lra.
    injection Hl as <-. injection Hr as <-.
    rewrite left_mod_band2, right_mod_band2 by lra. split; do 2 f_equal; lra.
  - rewrite left_mod_band1 in Hl by lra. rewrite right_mod_band2 in Hr by lra.
    injection Hl as <-. injection Hr as <-.
    rewrite left_mod_band1, right_mod_band2 by lra. split; do 2 f_equal; lra.
  - rewrite left_mod_band2 in Hl by lra. rewrite right_mod_band2 in Hr by lra.
    injection Hl as <-. injection Hr as <-.
    rewrite left_mod_band1, right_mod_band1 by lra. split; do 2 f_equal; lra.
  - rewrite left_mod_band3 in Hl by lra. rewrite right_mod_band2 in Hr by lra.
    injection Hl as <-. injection Hr as <-.
    rewrite left_mod_band4, right_mod_band4 by lra. split; do 2 f_equal; lra.
  - rewrite left_mod_band3 in Hl by lra. rewrite right_mod_band3 in Hr by lra.
    injection Hl as <-. injection Hr as <-.
    rewrite left_mod_band4, right_mod_band4 by lra. split; do 2 f_equal; lra.
  - rewrite left_mod_band3 in Hl by lra. rewrite right_mod_band4 in Hr by lra.
    injection Hl as <-. injection Hr as <-.
    rewrite left_mod_band3, right_mod_band4 by lra. split; do 2 f_equal; lra.
  - rewrite left_mod_band4 in Hl by lra. rewrite right_mod_band4 in Hr by lra.
    injection Hl as <-. injection Hr as <-.
    destruct (Req_dec a 180) as [E | NE].
    + rewrite left_mod_band3, right_mod_band2 by lra. split; do 2 f_equal; lra.
    + rewrite left_mod_band3, right_mod_band3 by lra. split; do 2 f_equal; lra.
Qed.

(** The modifiers at the opposite angle are the modifiers swapped and
    negated. *)
Lemma mods_flip (a l r : R) :
  -180 < a < 180 ->
  MotorController.calc_left_throttle_mod a = Py.Ok (Some l) ->
  MotorController.calc_right_throttle_mod a = Py.Ok (Some r) ->
  MotorController.calc_left_throttle_mod (- a) = Py.Ok (Some (- r))
  /\ MotorController.calc_right_throttle_mod (- a) = Py.Ok (Some (- l)).
Proof.
  intros H Hl Hr.
  assert (R0 : -180 < a <= 180) by lra.
  destruct (band_cases a R0) as [B | [B | [B | [B | [B | [B | B]]]]]].
  - rewrite left_mod_band1 in Hl by lra. rewrite right_mod_band1 in Hr by lra.
    injection Hl as <-. injection Hr as <-.
    rewrite left_mod_band4, right_mod_band4 by lra. split; do 2 f_equal; lra.
  - rewrite left_mod_band1 in Hl by lra. rewrite right_mod_band2 in Hr by lra.
    injection Hl as <-. injection Hr as <-.
    rewrite left_mod_band3, right_mod_band4 by lra. split; do 2 f_equal; lra.
  - rewrite left_mod_band2 in Hl by lra. rewrite right_mod_band2 in Hr by lra.
    injection Hl as <-. injection Hr as <-.
    rewrite left_mod_band3, right_mod_band3 by lra. split; do 2 f_equal; lra.
  - rewrite left_mod_band3 in Hl by lra. rewrite right_mod_band2 in Hr by lra.
    injection Hl as <-. injection Hr as <-.
    rewrite left_mod_band3, right_mod_band2 by lra. split; do 2 f_equal; lra.
  - rewrite left_mod_band3 in Hl by lra. rewrite right_mod_band3 in Hr by lra.
    injection Hl as <-. injection Hr as <-.
    rewrite left_mod_band2, right_mod_band2 by lra. split; do 2 f_equal; lra.
  - rewrite left_mod_band3 in Hl by lra. rewrite right_mod_band4 in Hr by lra.
    injection Hl as <-. injection Hr as <-.
    rewrite left_mod_band1, right_mod_band2 by lra. split; do 2 f_equal; lra.
  - rewrite left_mod_band4 in Hl by lra. rewrite right_mod_band4 in Hr by lra.
    injection Hl as <-. injection Hr as <-.
    rewrite left_mod_band1, right_mod_band1 by lra. split; do 2 f_equal; lra.
Qed.

Lemma vector_nonzero (x y : Z) : (x, y) <> (0%Z, 0%Z) -> ~ (IZR x = 0 /\ IZR y = 0).
Proof.
  intros H [Hx Hy]. apply eq_IZR in Hx, Hy. subst. now apply H.
Qed.

(** Mirroring the stick about its vertical axis swaps the two motors: if a
    nonzero vector [(x, y)] gives the throttles [(l, r)], then [(- x, y)]
    gives [(r, l)], in every configuration. *)
Theorem mirrored_stick_swaps_motors
  (self : MotorController.t) (x y : Z) (l r : R) :
  (x, y) <> (0%Z, 0%Z) ->
  MotorController.shaped_throttles self (x, y) = Py.Ok (l, r) ->
  MotorController.shaped_throttles self ((- x)%Z, y) = Py.Ok (r, l).
Proof.
  intros NZ Hs.
  destruct (mod_in_range _ (calc_vector_angle_range (x, y))) as [[lm [Hl _]] [rm [Hr _]]].
  rewrite (shaped_by_angle self (x, y) lm rm Hl Hr) in Hs. injection Hs as <- <-.
  destruct (atan2_mirror (IZR y) (IZR x)) as [Up Down].
  { intros [Hx Hy]. now apply (vector_nonzero x y NZ). }
  destruct (degrees_linear (Py.atan2 (IZR y) (IZR x)) 0) as (_ & Dup & Ddown).
  destruct (degrees_sign (Py.atan2 (IZR y) (IZR x))) as (S1 & S2 & S3 & S4 & _).
  assert (M : (0 <= MotorController.calc_vector_angle (x, y) <= 180
               /\ MotorController.calc_vector_angle ((- x)%Z, y)
                  = 180 - MotorController.calc_vector_angle (x, y))
              \/ (-180 < MotorController.calc_vector_angle (x, y) < 0
                  /\ MotorController.calc_vector_angle ((- x)%Z, y)
                     = -180 - MotorController.calc_vector_angle (x, y))).
  { unfold MotorController.calc_vector_angle. cbn [fst snd]. rewrite opp_IZR.
    destruct (Rle_dec 0 (IZR y)) as [Hy | Hy].
    - left. destruct (Up Hy) as [E B]. rewrite E, Dup. split; [ split | reflexivity ].
      + apply S1. lra.
      + apply S3. lra.
    - right. destruct Down as [E B]; [ lra | ]. rewrite E, Ddown.
      split; [ split | reflexivity ].
      + apply S4. lra.
      + apply S2. lra. }
  destruct (mods_mirror _ _ lm rm M Hl Hr) as [Hl' Hr'].
  rewrite (shaped_by_angle self ((- x)%Z, y) rm lm Hl' Hr'), length_mirror.
  reflexivity.
Qed.


Lemma calc_vector_angle_right (k : Z) :
  (0 < k)%Z -> MotorController.calc_vector_angle (k, 0%Z) = 0.
Proof.
  intros H. apply IZR_lt in H.
  unfold MotorController.calc_vector_angle, Py.atan2, Py.degrees. cbn [fst snd].
  cmp. unfold Rdiv at 1. rewrite Rmult_0_l, atan_0. lra.
Qed.

(** A stick pushed fully right turns on the spot, left motor forward; pushed
    fully left it turns the other way. *)
Lemma mirrored_stick_swaps_motors_witness :
  let thr := staged_throttle MotorController.default
               (MotorController.calc_normalized_vector_length (32768%Z, 0%Z)) in
  MotorController.shaped_throttles MotorController.default ((- 32768)%Z, 0%Z)
  = Py.Ok (thr * -1, thr * 1).
Proof.
  assert (NZ : (32768%Z, 0%Z) <> (0%Z, 0%Z)) by discriminate.
  assert (A : MotorController.calc_vector_angle (32768%Z, 0%Z) = 0)
    by (apply calc_vector_angle_right; lia).
  assert (Hl : MotorController.calc_left_throttle_mod
                 (MotorController.calc_vector_angle (32768%Z, 0%Z)) = Py.Ok (Some 1))
    by (rewrite A; apply left_mod_band3; lra).
  assert (Hr : MotorController.calc_right_throttle_mod
                 (MotorController.calc_vector_angle (32768%Z, 0%Z)) = Py.Ok (Some (-1)))
    by (rewrite A; apply right_mod_band2; lra).
  exact (mirrored_stick_swaps_motors MotorController.default 32768 0 _ _ NZ
           (shaped_by_angle MotorController.default (32768%Z, 0%Z) 1 (-1) Hl Hr)).
Defined.

(** Flipping the stick about its horizontal axis reverses the vehicle and
    swaps the two motors: if [(x, y)] gives the throttles [(l, r)], then
    [(x, - y)] gives [(- r, - l)], in every configuration. *)
Theorem flipped_stick_reverses_motors
  (self : MotorController.t) (x y : Z) (l r : R) :
  MotorController.shaped_throttles self (x, y) = Py.Ok (l, r) ->
  exists l' r',
    MotorController.shaped_throttles self (x, (- y)%Z) = Py.Ok (l', r')
    /\ l' = - r /\ r' = - l.
Proof.
  intros Hs.
  destruct (mod_in_range _ (calc_vector_angle_range (x, y))) as [[lm [Hl _]] [rm [Hr _]]].
  rewrite (shaped_by_angle self (x, y) lm rm Hl Hr) in Hs. injection Hs as <- <-.
  destruct (Z.eq_dec y 0) as [Y0 | YN].
  - (* on the x axis the vector is its own flip, and the motors are opposed *)
    subst y. change (- 0)%Z with 0%Z.
    rewrite (shaped_by_angle self (x, 0%Z) lm rm Hl Hr).
    do 2 eexists. split; [ reflexivity | ].
    assert (O : lm = - rm).
    { destruct (Z.lt_trichotomy x 0) as [Hx | [Hx | Hx]].
      - assert (A : MotorController.calc_vector_angle (x, 0%Z) = 180).
        { apply IZR_lt in Hx. pose proof PI_RGT_0.
          unfold MotorController.calc_vector_angle, Py.atan2, Py.degrees. cbn [fst snd].
          cmp. unfold Rdiv at 1. rewrite Rmult_0_l, atan_0. field. lra. }
        rewrite A, left_mod_band4 in Hl by lra. rewrite A, right_mod_band4 in Hr by lra.
        injection Hl as <-. injection Hr as <-. lra.
      - subst x.
        assert (A : MotorController.calc_vector_angle (0%Z, 0%Z) = 0).
        { unfold MotorController.calc_vector_angle, Py.atan2, Py.degrees. cbn [fst snd].
          cmp. lra. }
        rewrite A, left_mod_band3 in Hl by lra. rewrite A, right_mod_band2 in Hr by lra.
        injection Hl as <-. injection Hr as <-. lra.
      - rewrite calc_vector_angle_right, left_mod_band3 in Hl by (assumption || lra).
        rewrite calc_vector_angle_right, right_mod_band2 in Hr by (assumption || lra).
        injection Hl as <-. injection Hr as <-. lra. }
    rewrite O. split; ring.
  - destruct (atan2_flip (IZR y) (IZR x)) as [E B].
    { intros [Hy _]. apply eq_IZR in Hy. contradiction. }
    destruct (degrees_linear (Py.atan2 (IZR y) (IZR x)) 0) as (Dn & _ & _).
    destruct (degrees_sign (Py.atan2 (IZR y) (IZR x))) as (_ & _ & _ & S4 & S5).
    assert (A : MotorController.calc_vector_angle (x, (- y)%Z)
                = - MotorController.calc_vector_angle (x, y)).
    { unfold MotorController.calc_vector_angle. cbn [fst snd].
      rewrite opp_IZR, E, Dn. reflexivity. }
    assert (Rg : -180 < MotorController.calc_vector_angle (x, y) < 180).
    { unfold MotorController.calc_vector_angle. cbn [fst snd]. split.
      - apply S4. lra.
      - apply S5. lra. }
    destruct (mods_flip _ lm rm Rg Hl Hr) as [Hl' Hr'].
    rewrite <- A in Hl', Hr'.
    rewrite (shaped_by_angle self (x, (- y)%Z) _ _ Hl' Hr'), length_flip.
    do 2 eexists. split; [ reflexivity | ]. split; ring.
Qed.

Lemma flipped_stick_reverses_motors_witness :
  exists l' r',
    MotorController.shaped_throttles MotorController.default (0%Z, (- 32768)%Z)
    = Py.Ok (l', r')
    /\ l' = - (1 * 1 * 1) /\ r' = - (1 * 1 * 1).
Proof.
  exact (flipped_stick_reverses_motors MotorController.default 0 32768 _ _
           default_full_forward).
Defined.

(** ** motor_controller.py: dead zones and duty cycles *)

Lemma change_throttle_zero (m : Motor.t) : Motor.stopped (Motor.change_throttle m 0).
Proof.
  unfold Motor.change_throttle, Motor.stopped.
  assert (E : Py.round (Rabs (if Motor.is_reversed m then 0 * -1 else 0) * 100) = 0%Z).
  { replace (if Motor.is_reversed m then 0 * -1 else 0) with 0
      by (destruct (Motor.is_reversed m); lra).
    rewrite Rabs_R0. apply round_near_zero. lra. }
  rewrite E. destruct (0 <=? _); split; reflexivity.
Qed.

Lemma length_of_zero_vector :
  MotorController.calc_normalized_vector_length (0%Z, 0%Z) = 0.
Proof.
  unfold MotorController.calc_normalized_vector_length, Py.sqrt. cbn [fst snd].
  change (0 ^ 2 + 0 ^ 2)%Z with 0%Z. rewrite sqrt_0.
  replace (0 / IZR MotorController.MAX_ABS_AXIS_VALUE) with 0
    by (unfold MotorController.MAX_ABS_AXIS_VALUE; simpl; lra).
  destruct (ltb_spec 1 0); [ exfalso; lra | reflexivity ].
Qed.

(** Gate and limit map a zero throttle to zero. *)
Lemma gate_limit_zero (self : MotorController.t) :
  limit_not_negative self ->
  match MotorController.throttle_limit self with
  | Some lim =>
      MotorController._apply_throttle_limiting lim
        match MotorController.throttle_gate_threshold self with
        | Some th => MotorController._apply_throttle_gate th 0
        | None => 0
        end
  | None =>
      match MotorController.throttle_gate_threshold self with
      | Some th => MotorController._apply_throttle_gate th 0
      | None => 0
      end
  end = 0.
Proof.
  unfold limit_not_negative. intros L.
  assert (G : match MotorController.throttle_gate_threshold self with
              | Some th => MotorController._apply_throttle_gate th 0
              | None => 0
              end = 0).
  { destruct (MotorController.throttle_gate_threshold self) as [th | ]; [ | reflexivity ].
    unfold MotorController._apply_throttle_gate. destruct (_ <? _); reflexivity. }
  rewrite G.
  destruct (MotorController.throttle_limit self) as [lim | ]; [ | reflexivity ].
  apply limiting_pass. rewrite Rabs_R0. exact L.
Qed.

Lemma staged_zero (self : MotorController.t) :
  limit_not_negative self -> staged_throttle self 0 = 0.
Proof.
  intros L. unfold staged_throttle. cbv zeta. rewrite Rmult_0_r.
  assert (C : (if MotorController.enable_throttle_curve self
               then MotorController._apply_throttle_curve 0 else 0) = 0).
  { destruct (MotorController.enable_throttle_curve self); [ | reflexivity ].
    assert (P : MotorController.throttle_curve_poly 0 = 0)
      by (unfold MotorController.throttle_curve_poly; lra).
    rewrite curve_inside by lra. exact P. }
  rewrite C. apply gate_limit_zero. exact L.
Qed.

Lemma shaped_all (self : MotorController.t) (v : Z * Z) :
  exists lm rm,
    MotorController.shaped_throttles self v
    = Py.Ok (staged_throttle self (MotorController.calc_normalized_vector_length v) * lm,
             staged_throttle self (MotorController.calc_normalized_vector_length v) * rm)
    /\ -1 <= lm <= 1 /\ -1 <= rm <= 1.
Proof.
  destruct (mod_in_range _ (calc_vector_angle_range v)) as [[lm [Hl Bl]] [rm [Hr Br]]].
  exists lm, rm. split; [ now apply shaped_by_angle | split; assumption ].
Qed.

(** A centred stick stops the vehicle: in every configuration whose limit is
    absent or not negative, the zero vector gives both motors the throttle 0
    and leaves all four channels off. *)
Theorem centred_stick_stops (self : MotorController.t) :
  limit_not_negative self ->
  exists l r ctrl,
    MotorController.shaped_throttles self (0%Z, 0%Z) = Py.Ok (l, r)
    /\ l = 0 /\ r = 0
    /\ MotorController.handle_vector_input self (0%Z, 0%Z) = Py.Ok ctrl
    /\ Motor.stopped (MotorController.left_motor ctrl)
    /\ Motor.stopped (MotorController.right_motor ctrl).
Proof.
  intros L. destruct (shaped_all self (0%Z, 0%Z)) as (lm & rm & Hs & _ & _).
  rewrite length_of_zero_vector, staged_zero in Hs by assumption.
  exists (0 * lm), (0 * rm). eexists.
  split; [ exact Hs | ]. split; [ ring | ]. split; [ ring | ].
  split; [ apply handle_vector_input_ok; exact Hs | ].
  cbn [MotorController.left_motor MotorController.right_motor].
  rewrite !Rmult_0_l. split; apply change_throttle_zero.
Qed.

Lemma centred_stick_stops_witness :
  exists l r ctrl,
    MotorController.shaped_throttles MotorController.default (0%Z, 0%Z) = Py.Ok (l, r)
    /\ l = 0 /\ r = 0
    /\ MotorController.handle_vector_input MotorController.default (0%Z, 0%Z) = Py.Ok ctrl
    /\ Motor.stopped (MotorController.left_motor ctrl)
    /\ Motor.stopped (MotorController.right_motor ctrl).
Proof.
  apply (centred_stick_stops MotorController.default).
  unfold limit_not_negative. cbn. lra.
Defined.

(** The gate is a dead zone for the stick: with the curve off and a limit
    that is absent or not negative, every vector whose scaled length is below
    the gate threshold gives both motors the throttle 0 and leaves all four
    channels off. *)
Theorem gate_is_stick_deadzone (self : MotorController.t) (v : Z * Z) (th : R) :
  MotorController.enable_throttle_curve self = false ->
  MotorController.throttle_gate_threshold self = Some th ->
  limit_not_negative self ->
  Rabs (MotorController.throttle_scale self
        * MotorController.calc_normalized_vector_length v) < th ->
  exists l r ctrl,
    MotorController.shaped_throttles self v = Py.Ok (l, r)
    /\ l = 0 /\ r = 0
    /\ MotorController.handle_vector_input self v = Py.Ok ctrl
    /\ Motor.stopped (MotorController.left_motor ctrl)
    /\ Motor.stopped (MotorController.right_motor ctrl).
Proof.
  intros C G L B. destruct (shaped_all self v) as (lm & rm & Hs & _ & _).
  assert (Z0 : staged_throttle self (MotorController.calc_normalized_vector_length v) = 0).
  { pose proof (gate_limit_zero self L) as K. rewrite G in K.
    unfold staged_throttle. cbv zeta. rewrite C, G.
    unfold MotorController._apply_throttle_gate at 1 2.
    destruct (ltb_spec (Rabs (MotorController.throttle_scale self
                              * MotorController.calc_normalized_vector_length v)) th);
      [ | exfalso; lra ].
    unfold MotorController._apply_throttle_gate in K.
    destruct (Rabs 0 <? th); exact K. }
  rewrite Z0 in Hs.
  exists (0 * lm), (0 * rm). eexists.
  split; [ exact Hs | ]. split; [ ring | ]. split; [ ring | ].
  split; [ apply handle_vector_input_ok; exact Hs | ].
  cbn [MotorController.left_motor MotorController.right_motor].
  rewrite !Rmult_0_l. split; apply change_throttle_zero.
Qed.

(** With the defaults (gate 0.1), a deflection of 3000 out of 32768 is inside
    the dead zone. *)
Lemma gate_is_stick_deadzone_witness :
  exists l r ctrl,
    MotorController.shaped_throttles MotorController.default (3000%Z, 0%Z) = Py.Ok (l, r)
    /\ l = 0 /\ r = 0
    /\ MotorController.handle_vector_input MotorController.default (3000%Z, 0%Z)
       = Py.Ok ctrl
    /\ Motor.stopped (MotorController.left_motor ctrl)
    /\ Motor.stopped (MotorController.right_motor ctrl).
Proof.
  apply (gate_is_stick_deadzone MotorController.default (3000%Z, 0%Z) (1 / 10)).
  - reflexivity.
  - reflexivity.
  - unfold limit_not_negative. cbn. lra.
  - unfold MotorController.calc_normalized_vector_length, Py.sqrt. cbn [fst snd].
    replace (IZR (3000 ^ 2 + 0 ^ 2)) with (3000 * 3000)
      by (change (3000 ^ 2 + 0 ^ 2)%Z with 9000000%Z; lra).
    rewrite sqrt_square by lra.
    replace (IZR MotorController.MAX_ABS_AXIS_VALUE) with 32768
      by (unfold MotorController.MAX_ABS_AXIS_VALUE; simpl; lra).
    destruct (ltb_spec 1 (3000 / 32768)); [ exfalso; lra | ].
    cbn [MotorController.throttle_scale MotorController.default MotorController.init].
    rewrite Rabs_pos_eq; lra.
Defined.

(** With a limit of magnitude at most 1, [handle_vector_input] only ever
    commands valid duty cycles: for every vector all four channels end up
    between 0 and 100 percent. *)
Theorem handle_vector_input_duty_valid
  (self : MotorController.t) (v : Z * Z) (limit : R) :
  MotorController.throttle_limit self = Some limit ->
  Rabs limit <= 1 ->
  exists ctrl,
    MotorController.handle_vector_input self v = Py.Ok ctrl
    /\ (0 <= Motor.pwm_positive (MotorController.left_motor ctrl) <= 100)%Z
    /\ (0 <= Motor.pwm_negative (MotorController.left_motor ctrl) <= 100)%Z
    /\ (0 <= Motor.pwm_positive (MotorController.right_motor ctrl) <= 100)%Z
    /\ (0 <= Motor.pwm_negative (MotorController.right_motor ctrl) <= 100)%Z.
Proof.
  intros E L.
  destruct (shaped_throttles_ok self v) as (thr & lm & rm & Hs & Bl & Br & Hlim).
  destruct (Hlim limit E) as [thr0 Ht].
  assert (Bt : Rabs thr <= 1).
  { rewrite Ht. pose proof (limiting_bound limit thr0). lra. }
  pose proof (scaled_by_modifier thr lm _ Bt Bl) as Al.
  pose proof (scaled_by_modifier thr rm _ Bt Br) as Ar.
  eexists. split; [ apply handle_vector_input_ok; exact Hs | ].
  cbn [MotorController.left_motor MotorController.right_motor].
  assert (D : forall m t, Rabs t <= 1 ->
              (0 <= Motor.pwm_positive (Motor.change_throttle m t) <= 100)%Z
              /\ (0 <= Motor.pwm_negative (Motor.change_throttle m t) <= 100)%Z).
  { intros m t A. unfold Motor.change_throttle.
    set (t' := if Motor.is_reversed m then t * -1 else t).
    assert (A' : 0 <= Rabs t' <= 1).
    { split; [ apply Rabs_pos | ]. subst t'. destruct (Motor.is_reversed m); [ | exact A ].
      replace (t * -1) with (- t) by lra. rewrite Rabs_Ropp. exact A. }
    assert (K : (0 <= Py.round (Rabs t' * 100) <= 100)%Z) by (apply round_between; lra).
    destruct (0 <=? t'); cbn [Motor.pwm_positive Motor.pwm_negative]; lia. }
  destruct (D (MotorController.left_motor self) _ Al).
  destruct (D (MotorController.right_motor self) _ Ar).
  repeat split; lia.
Qed.

Lemma handle_vector_input_duty_valid_witness :
  exists ctrl,
    MotorController.handle_vector_input MotorController.default (20000%Z, (-30000)%Z)
    = Py.Ok ctrl
    /\ (0 <= Motor.pwm_positive (MotorController.left_motor ctrl) <= 100)%Z
    /\ (0 <= Motor.pwm_negative (MotorController.left_motor ctrl) <= 100)%Z
    /\ (0 <= Motor.pwm_positive (MotorController.right_motor ctrl) <= 100)%Z
    /\ (0 <= Motor.pwm_negative (MotorController.right_motor ctrl) <= 100)%Z.
Proof.
  apply (handle_vector_input_duty_valid MotorController.default
           (20000%Z, (-30000)%Z) 1).
  - reflexivity.
  - rewrite Rabs_pos_eq; lra.
Defined.

(** ** gamepad.py: the producer side *)

(** The only exception [Gamepad.run] can raise is [ZeroDivisionError], and it
    raises it exactly when [accept_every_nth_event] is 0 and at least one
    event arrives, whatever that event is; [KeyError] never occurs. *)
Theorem gamepad_run_raises_only_zero_division
  (timeout nth : Z) (ix iy : bool) (g : Gamepad.t) (evs : list Gamepad.event) :
  Gamepad.init timeout nth ix iy = Py.Ok g ->
  (nth = 0%Z -> evs <> [] -> Gamepad.run g evs = Py.Raise Py.ZeroDivisionError)
  /\ (nth <> 0%Z \/ evs = [] -> exists g', Gamepad.run g evs = Py.Ok g').
Proof.
  intros Hi. destruct (init_ok _ _ _ _ _ Hi) as (EN & EC & W & _).
  split.
  - intros Z0 NE. destruct evs as [ | ev rest ]; [ contradiction | ].
    cbn [Gamepad.run]. unfold Gamepad.handle_event. rewrite EN, Z0. reflexivity.
  - intros [NZ | ->].
    + destruct (run_spec evs g) as (g1 & E1 & _); [ congruence | assumption | ].
      exists g1. exact E1.
    + exists g. reflexivity.
Qed.

Lemma gamepad_run_raises_only_zero_division_witness :
  Gamepad.run (Gamepad.mk (-1) [] [(2%Z, 0%Z); (5%Z, 0%Z)] false false 0 0)
    [Gamepad.mk_event 1 0 0] = Py.Raise Py.ZeroDivisionError.
Proof.
  assert (NE : [Gamepad.mk_event 1 0 0] <> []) by discriminate.
  exact (proj1 (gamepad_run_raises_only_zero_division (-1) 0 false false
                  (Gamepad.mk (-1) [] [(2%Z, 0%Z); (5%Z, 0%Z)] false false 0 0)
                  [Gamepad.mk_event 1 0 0] eq_refl) eq_refl NE).
Defined.

Lemma accepts_matches (g : Gamepad.t) (count : Z) (ev : Gamepad.event) :
  Gamepad.accepts g count ev
  = Z.eqb (count mod Gamepad.accept_every_nth_event g) 0 && matches_filters ev.
Proof. unfold Gamepad.accepts, matches_filters. now rewrite andb_assoc. Qed.

(** The queue only grows at its tail: a run never drops, reorders or
    rewrites an unread vector, and appends one vector per accepted event. *)
Theorem gamepad_queue_only_grows (g g' : Gamepad.t) (evs : list Gamepad.event) :
  Gamepad.accept_every_nth_event g <> 0%Z ->
  has_both_axes (Gamepad.last_event_values g) ->
  Gamepad.run g evs = Py.Ok g' ->
  exists published,
    Gamepad._xy_vector_queue g' = Gamepad._xy_vector_queue g ++ published
    /\ length published
       = length (accepted_events (Gamepad.accept_every_nth_event g)
                   (Gamepad.received_event_count g) evs)
    /\ (length published <= length evs)%nat.
Proof.
  revert g. induction evs as [ | ev rest IH ]; intros g HN W Hr.
  - cbn in Hr. injection Hr as <-. exists []. rewrite app_nil_r. cbn. repeat split; lia.
  - cbn [Gamepad.run] in Hr.
    destruct (handle_event_spec g ev HN W) as (g2 & E & N2 & C2 & W2 & P).
    rewrite E in Hr. cbn [Py.bind] in Hr.
    destruct (IH g2) as (more & Q & L & B); [ congruence | assumption | assumption | ].
    cbn [accepted_events]. rewrite N2, C2 in L.
    rewrite accepts_matches in P.
    destruct (Z.eqb ((Gamepad.received_event_count g + 1)
                     mod Gamepad.accept_every_nth_event g) 0 && matches_filters ev).
    + destruct P as (v & Qv & _). exists (v :: more).
      rewrite Q, Qv, <- app_assoc. cbn [app length]. repeat split; lia.
    + destruct P as (Qv & _). exists more. rewrite Q, Qv. cbn [length].
      repeat split; lia.
Qed.

Lemma gamepad_queue_only_grows_witness :
  let stick := Gamepad.mk_event 3 2 40000 in
  let other := Gamepad.mk_event 1 2 40000 in
  let g := Gamepad.mk (-1) [(5%Z, 6%Z)] [(2%Z, 0%Z); (5%Z, 0%Z)] false false 2 0 in
  let g' := Gamepad.mk (-1) [(5%Z, 6%Z); (7232%Z, 0%Z)]
              [(2%Z, 7232%Z); (5%Z, 0%Z)] false false 2 3 in
  exists published,
    Gamepad._xy_vector_queue g' = Gamepad._xy_vector_queue g ++ published
    /\ length published = 1%nat
    /\ (length published <= 3)%nat.
Proof.
  cbv zeta.
  assert (HN : 2%Z <> 0%Z) by discriminate.
  assert (W : has_both_axes [(2%Z, 0%Z); (5%Z, 0%Z)])
    by (exists 0%Z, 0%Z; split; reflexivity).
  exact (gamepad_queue_only_grows
           (Gamepad.mk (-1) [(5%Z, 6%Z)] [(2%Z, 0%Z); (5%Z, 0%Z)] false false 2 0)
           (Gamepad.mk (-1) [(5%Z, 6%Z); (7232%Z, 0%Z)]
              [(2%Z, 7232%Z); (5%Z, 0%Z)] false false 2 3)
           [Gamepad.mk_event 1 2 40000; Gamepad.mk_event 3 2 40000;
            Gamepad.mk_event 1 2 40000]
           HN W eq_refl).
Defined.

(** With the default [accept_every_nth_event = 1] every matching event is
    published: the queue grows by the number of events that pass the type and
    code filters. *)
Theorem gamepad_publishes_every_matching_event
  (g g' : Gamepad.t) (evs : list Gamepad.event) :
  Gamepad.accept_every_nth_event g = 1%Z ->
  has_both_axes (Gamepad.last_event_values g) ->
  Gamepad.run g evs = Py.Ok g' ->
  length (Gamepad._xy_vector_queue g')
  = (length (Gamepad._xy_vector_queue g) + length (filter matches_filters evs))%nat.
Proof.
  revert g. induction evs as [ | ev rest IH ]; intros g HN W Hr.
  - cbn in Hr. injection Hr as <-. cbn. lia.
  - cbn [Gamepad.run] in Hr.
    destruct (handle_event_spec g ev) as (g2 & E & N2 & C2 & W2 & P);
      [ rewrite HN; discriminate | assumption | ].
    rewrite E in Hr. cbn [Py.bind] in Hr.
    rewrite (IH g2) by (congruence || assumption).
    rewrite accepts_matches, HN, Z.mod_1_r in P. cbn [Z.eqb andb filter] in *.
    destruct (matches_filters ev).
    + destruct P as (v & Qv & _). rewrite Qv, length_app. cbn [length]. lia.
    + destruct P as (Qv & _). rewrite Qv. lia.
Qed.

Lemma gamepad_publishes_every_matching_event_witness :
  length (Gamepad._xy_vector_queue
            (Gamepad.mk (-1) [(7232%Z, 0%Z); (7232%Z, (-32768)%Z)]
               [(2%Z, 7232%Z); (5%Z, (-32768)%Z)] false true 1 3))
  = (length (@nil (Z * Z))
     + length (filter matches_filters
                 [Gamepad.mk_event 3 2 40000; Gamepad.mk_event 1 2 1;
                  Gamepad.mk_event 3 5 0]))%nat.
Proof.
  assert (W : has_both_axes [(2%Z, 0%Z); (5%Z, 0%Z)])
    by (exists 0%Z, 0%Z; split; reflexivity).
  exact (gamepad_publishes_every_matching_event
           (Gamepad.mk (-1) [] [(2%Z, 0%Z); (5%Z, 0%Z)] false true 1 0)
           (Gamepad.mk (-1) [(7232%Z, 0%Z); (7232%Z, (-32768)%Z)]
              [(2%Z, 7232%Z); (5%Z, (-32768)%Z)] false true 1 3)
           [Gamepad.mk_event 3 2 40000; Gamepad.mk_event 1 2 1; Gamepad.mk_event 3 5 0]
           eq_refl W eq_refl).
Defined.

(** An accepted event changes one axis only: the published vector carries
    the event's value, rebased by 2^15, on the event's axis and the last known
    value on the other axis; a raw value in [0, 65535] lands in
    [-32768, 32767]. *)
Theorem accepted_event_updates_one_axis
  (g : Gamepad.t) (ev : Gamepad.event) (x0 y0 : Z) :
  Gamepad.accept_every_nth_event g <> 0%Z ->
  Gamepad.dict_get (Gamepad.last_event_values g) Gamepad._EVENT_CODE_RIGHT_X_AXIS = Some x0 ->
  Gamepad.dict_get (Gamepad.last_event_values g) Gamepad._EVENT_CODE_RIGHT_Y_AXIS = Some y0 ->
  Gamepad.accepts g (Gamepad.received_event_count g + 1) ev = true ->
  exists g2,
    Gamepad.handle_event g ev = Py.Ok g2
    /\ Gamepad._xy_vector_queue g2
       = Gamepad._xy_vector_queue g
         ++ [if Z.eqb (Gamepad.ev_code ev) Gamepad._EVENT_CODE_RIGHT_X_AXIS
             then ((Gamepad.ev_value ev - 2 ^ 15)%Z, y0)
             else (x0, (Gamepad.ev_value ev - 2 ^ 15)%Z)]
    /\ ((0 <= Gamepad.ev_value ev <= 65535)%Z ->
        (-32768 <= Gamepad.ev_value ev - 2 ^ 15 <= 32767)%Z).
Proof.
  intros HN Hx Hy A. unfold Gamepad.handle_event.
  destruct (Z.eqb_spec (Gamepad.accept_every_nth_event g) 0); [ contradiction | ].
  rewrite A.
  assert (C : Gamepad.ev_code ev = Gamepad._EVENT_CODE_RIGHT_X_AXIS
              \/ Gamepad.ev_code ev = Gamepad._EVENT_CODE_RIGHT_Y_AXIS).
  { unfold Gamepad.accepts in A. apply andb_prop in A. destruct A as [_ M].
    unfold Gamepad.mem, Gamepad._TARGET_EVENT_CODES in M. cbn [existsb] in M.
    rewrite orb_false_r in M. apply orb_prop in M.
    destruct M as [M | M]; apply Z.eqb_eq in M; auto. }
  unfold Gamepad._create_xy_vector. cbn [Gamepad.last_event_values].
  destruct C as [C | C]; rewrite C.
  - rewrite dict_get_set_same, dict_get_set_other, Hy by discriminate.
    cbn [Py.bind]. eexists. split; [ reflexivity | ].
    cbn [Gamepad._xy_vector_queue]. rewrite Z.eqb_refl. split; [ reflexivity | lia ].
  - rewrite dict_get_set_other, Hx, dict_get_set_same by discriminate.
    cbn [Py.bind]. eexists. split; [ reflexivity | ].
    cbn [Gamepad._xy_vector_queue]. split; [ reflexivity | lia ].
Qed.

Lemma accepted_event_updates_one_axis_witness :
  exists g2,
    Gamepad.handle_event
      (Gamepad.mk (-1) [] [(2%Z, 100%Z); (5%Z, (-7)%Z)] false true 1 4)
      (Gamepad.mk_event 3 5 65535) = Py.Ok g2
    /\ Gamepad._xy_vector_queue g2 = [] ++ [(100%Z, (65535 - 2 ^ 15)%Z)]
    /\ ((0 <= 65535 <= 65535)%Z -> (-32768 <= 65535 - 2 ^ 15 <= 32767)%Z).
Proof.
  assert (HN : 1%Z <> 0%Z) by discriminate.
  exact (accepted_event_updates_one_axis
           (Gamepad.mk (-1) [] [(2%Z, 100%Z); (5%Z, (-7)%Z)] false true 1 4)
           (Gamepad.mk_event 3 5 65535) 100 (-7) HN eq_refl eq_refl eq_refl).
Defined.

(** ** gamepad.py: the consumer side *)

(** Reads are first in, first out, with the inversion applied at the read:
    an unread vector is handed out before anything published after it, by a
    blocking and by a non-blocking read alike, and only that one vector
    leaves the queue.  On an empty queue a non-blocking read returns [None]
    and changes nothing, and a blocking read does not return. *)
Theorem queue_reads_oldest_first
  (g g2 : Gamepad.t) (ev : Gamepad.event) (v : Z * Z) (rest : list (Z * Z))
  (block : bool) :
  Gamepad._xy_vector_queue g = v :: rest ->
  Gamepad.handle_event g ev = Py.Ok g2 ->
  (exists g1,
      Gamepad.get_xy_vector_from_queue g block = Some (Some (inverted g v), g1)
      /\ Gamepad._xy_vector_queue g1 = rest)
  /\ (exists g3 published,
         Gamepad.get_xy_vector_from_queue g2 block = Some (Some (inverted g v), g3)
         /\ Gamepad._xy_vector_queue g3 = rest ++ published)
  /\ (forall e : Gamepad.t,
         Gamepad._xy_vector_queue e = [] ->
         Gamepad.get_xy_vector_from_queue e false = Some (None, e)
         /\ Gamepad.get_xy_vector_from_queue e true = None).
Proof.
  intros Q H. split; [ | split ].
  - unfold Gamepad.get_xy_vector_from_queue. rewrite Q.
    eexists. split; reflexivity.
  - unfold Gamepad.handle_event in H.
    destruct (Z.eqb (Gamepad.accept_every_nth_event g) 0); [ discriminate | ].
    destruct (Gamepad.accepts g (Gamepad.received_event_count g + 1) ev).
    + destruct (Gamepad._create_xy_vector _) as [v' | ]; [ | discriminate ].
      cbn [Py.bind] in H. injection H as <-.
      unfold Gamepad.get_xy_vector_from_queue.
      cbn [Gamepad._xy_vector_queue Gamepad.invert_x Gamepad.invert_y].
      rewrite Q. cbn [app]. do 2 eexists. split; reflexivity.
    + injection H as <-.
      unfold Gamepad.get_xy_vector_from_queue.
      cbn [Gamepad._xy_vector_queue Gamepad.invert_x Gamepad.invert_y].
      rewrite Q. exists (Gamepad.mk (Gamepad.timeout_connection g) rest
                           (Gamepad.last_event_values g) (Gamepad.invert_x g)
                           (Gamepad.invert_y g) (Gamepad.accept_every_nth_event g)
                           (Gamepad.received_event_count g + 1)), [].
      rewrite app_nil_r. split; reflexivity.
  - intros e E. unfold Gamepad.get_xy_vector_from_queue. rewrite E. split; reflexivity.
Qed.

Lemma queue_reads_oldest_first_witness :
  exists g3 published,
    Gamepad.get_xy_vector_from_queue
      (Gamepad.mk (-1) [(5%Z, 6%Z); (7232%Z, 0%Z)] [(2%Z, 7232%Z); (5%Z, 0%Z)]
         false true 1 1) false
    = Some (Some (5%Z, (6 * -1)%Z), g3)
    /\ Gamepad._xy_vector_queue g3 = [] ++ published.
Proof.
  exact (proj1 (proj2
    (queue_reads_oldest_first
       (Gamepad.mk (-1) [(5%Z, 6%Z)] [(2%Z, 0%Z); (5%Z, 0%Z)] false true 1 0)
       (Gamepad.mk (-1) [(5%Z, 6%Z); (7232%Z, 0%Z)] [(2%Z, 7232%Z); (5%Z, 0%Z)]
          false true 1 1)
       (Gamepad.mk_event 3 2 40000) (5%Z, 6%Z) [] false eq_refl eq_refl))).
Defined.

(** ** gamepad.py: the device lookup *)

Lemma find_snoc {A : Type} (f : A -> bool) (xs : list A) (d : A) :
  find f (xs ++ [d])
  = match find f xs with
    | Some x => Some x
    | None => if f d then Some d else None
    end.
Proof.
  induction xs as [ | x xs IH ]; cbn.
  - reflexivity.
  - destruct (f x); [ reflexivity | exact IH ].
Qed.

(** One pass over the devices keeps the path of the last device with the
    wanted name. *)
Lemma scan_last_match (device_name : String.string)
  (available : list GamepadDevice.device) (path : option String.string) :
  GamepadDevice.scan device_name available path
  = match find (fun d => String.eqb (GamepadDevice.name d) device_name) (rev available) with
    | Some d => Some (GamepadDevice.fn d)
    | None => path
    end.
Proof.
  revert path. induction available as [ | d rest IH ]; intros path.
  - reflexivity.
  - cbn [GamepadDevice.scan rev]. rewrite IH, find_snoc.
    destruct (find _ (rev rest)); [ reflexivity | ].
    destruct (String.eqb (GamepadDevice.name d) device_name); reflexivity.
Qed.

(** Called without [block], [_get_path_of_device_with_name] never looks at
    the devices: it returns [None] even when a device with the wanted name is
    present. *)
Theorem nonblocking_lookup_finds_nothing (device_name : String.string)
  (polls : list (list GamepadDevice.device)) :
  GamepadDevice._get_path_of_device_with_name device_name false polls = Some None.
Proof. destruct polls; reflexivity. Qed.

(** Called with [block], the lookup keeps polling while no device has the
    wanted name and returns from the first poll that shows such a device,
    with the path of the last one in that poll; called without [block] on
    the same polls it returns [None] although the device is there. *)
Theorem blocking_lookup_returns_last_match (device_name : String.string)
  (before : list (list GamepadDevice.device))
  (poll : list GamepadDevice.device) (later : list (list GamepadDevice.device))
  (d : GamepadDevice.device) :
  Forall (fun p =>
            forallb (fun d => negb (String.eqb (GamepadDevice.name d) device_name)) p
            = true) before ->
  find (fun d => String.eqb (GamepadDevice.name d) device_name) (rev poll) = Some d ->
  GamepadDevice._get_path_of_device_with_name device_name true before = None
  /\ GamepadDevice._get_path_of_device_with_name device_name true
       (before ++ poll :: later) = Some (Some (GamepadDevice.fn d))
  /\ GamepadDevice._get_path_of_device_with_name device_name false
       (before ++ poll :: later) = Some None.
Proof.
  intros Hb Hf.
  assert (NB : GamepadDevice._get_path_of_device_with_name device_name false
                 (before ++ poll :: later) = Some None)
    by (destruct (before ++ poll :: later); reflexivity).
  revert NB. generalize (GamepadDevice._get_path_of_device_with_name device_name false
                           (before ++ poll :: later)). intros nb NB.
  assert (N : forall p,
             forallb (fun d => negb (String.eqb (GamepadDevice.name d) device_name)) p
             = true ->
             GamepadDevice.scan device_name p None = None).
  { intros p Hp. rewrite scan_last_match.
    destruct (find _ (rev p)) as [d' | ] eqn:F; [ | reflexivity ].
    apply find_some in F. destruct F as [I E]. apply in_rev in I.
    rewrite forallb_forall in Hp. specialize (Hp d' I). rewrite E in Hp. discriminate. }
  induction Hb as [ | p ps Hp _ IH ].
  - split; [ reflexivity | split; [ | exact NB ] ].
    cbn [app GamepadDevice._get_path_of_device_with_name negb].
    rewrite scan_last_match, Hf. reflexivity.
  - cbn [app GamepadDevice._get_path_of_device_with_name negb].
    rewrite (N p Hp). exact IH.
Qed.

Section LookupExample.

Import String.
Local Open Scope string_scope.

(** Nothing on the first poll, two controllers of the same name on the
    second: the lookup returns the path of the second of them. *)
Lemma blocking_lookup_returns_last_match_witness :
  GamepadDevice._get_path_of_device_with_name "Xbox Wireless Controller" true
    [[GamepadDevice.mk_device "keyboard" "/dev/input/event0"]] = None
  /\ GamepadDevice._get_path_of_device_with_name "Xbox Wireless Controller" true
       ([[GamepadDevice.mk_device "keyboard" "/dev/input/event0"]]
        ++ [GamepadDevice.mk_device "Xbox Wireless Controller" "/dev/input/event1";
            GamepadDevice.mk_device "keyboard" "/dev/input/event0";
            GamepadDevice.mk_device "Xbox Wireless Controller" "/dev/input/event2"]
        :: [])
     = Some (Some "/dev/input/event2")
  /\ GamepadDevice._get_path_of_device_with_name "Xbox Wireless Controller" false
       ([[GamepadDevice.mk_device "keyboard" "/dev/input/event0"]]
        ++ [GamepadDevice.mk_device "Xbox Wireless Controller" "/dev/input/event1";
            GamepadDevice.mk_device "keyboard" "/dev/input/event0";
            GamepadDevice.mk_device "Xbox Wireless Controller" "/dev/input/event2"]
        :: [])
     = Some None.
Proof.
  assert (Hb : Forall (fun p =>
                  forallb (fun d => negb (String.eqb (GamepadDevice.name d)
                                           "Xbox Wireless Controller")) p = true)
                 [[GamepadDevice.mk_device "keyboard" "/dev/input/event0"]]).
  { constructor; [ reflexivity | constructor ]. }
  exact (blocking_lookup_returns_last_match "Xbox Wireless Controller"
           [[GamepadDevice.mk_device "keyboard" "/dev/input/event0"]]
           [GamepadDevice.mk_device "Xbox Wireless Controller" "/dev/input/event1";
            GamepadDevice.mk_device "keyboard" "/dev/input/event0";
            GamepadDevice.mk_device "Xbox Wireless Controller" "/dev/input/event2"]
           []
           (GamepadDevice.mk_device "Xbox Wireless Controller" "/dev/input/event2")
           Hb eq_refl).
Defined.

End LookupExample.

(** ** battery_guard.py over a run of samples *)

(** After a positive reading at [t1], over any run of readings none of which
    is positive, the flag is set at the end exactly when no zero reading of
    the run came later than [t1 + timeout]: one late zero reading is enough to
    clear it, and later early ones do not set it again. *)
Theorem flag_after_positive_reading
  (timeout : R) (g : BatteryGuard.t) (t1 : R) (since : list (Z * R)) :
  Forall not_positive since ->
  BatteryGuard.is_battery_ok
    (BatteryGuard.run timeout (BatteryGuard.sample timeout g 1 t1) since)
  = negb (existsb (fun s => Z.eqb (fst s) 0 && (timeout <? snd s - t1)) since).
Proof.
  induction since as [ | s rest IH ] using rev_ind; intros F.
  - reflexivity.
  - apply Forall_app in F. destruct F as [Fr Fs].
    inversion Fs as [ | ? ? Hs _ ]; subst.
    rewrite run_app, existsb_app. cbn [BatteryGuard.run fold_left existsb].
    rewrite orb_false_r.
    pose proof (run_not_positive timeout rest
                  (BatteryGuard.sample timeout g 1 t1) Fr) as L.
    assert (L' : BatteryGuard._last_ok_time (BatteryGuard.sample timeout g 1 t1) = t1)
      by reflexivity.
    rewrite L' in L. clear L'.
    fold (BatteryGuard.run timeout (BatteryGuard.sample timeout g 1 t1) rest).
    specialize (IH Fr).
    set (G := BatteryGuard.run timeout (BatteryGuard.sample timeout g 1 t1) rest) in *.
    unfold BatteryGuard.sample at 1.
    destruct (Z.eqb_spec (fst s) 1); [ contradiction | ].
    rewrite L.
    destruct (Z.eqb (fst s) 0 && (timeout <? snd s - t1));
      cbn [BatteryGuard.is_battery_ok].
    + now rewrite orb_true_r.
    + now rewrite orb_false_r.
Qed.

Lemma flag_after_positive_reading_witness :
  BatteryGuard.is_battery_ok
    (BatteryGuard.run 5 (BatteryGuard.sample 5 (BatteryGuard.init 0) 1 10)
       [(0%Z, 12); (0%Z, 16); (0%Z, 17)])
  = negb (existsb (fun s => Z.eqb (fst s) 0 && (5 <? snd s - 10))
            [(0%Z, 12); (0%Z, 16); (0%Z, 17)]).
Proof.
  apply (flag_after_positive_reading 5 (BatteryGuard.init 0) 10
           [(0%Z, 12); (0%Z, 16); (0%Z, 17)]).
  repeat constructor; discriminate.
Defined.

(** A cleared flag is latched: no run of readings without a positive one
    sets it again, however the readings are timed, and the timer stays where
    it was. *)
Theorem cleared_flag_stays_cleared
  (timeout : R) (g : BatteryGuard.t) (samples : list (Z * R)) :
  BatteryGuard.is_battery_ok g = false ->
  Forall not_positive samples ->
  BatteryGuard.is_battery_ok (BatteryGuard.run timeout g samples) = false
  /\ BatteryGuard._last_ok_time (BatteryGuard.run timeout g samples)
     = BatteryGuard._last_ok_time g.
Proof.
  intros Hf F. split; [ | now apply run_not_positive ].
  revert g Hf. induction F as [ | s rest Hs _ IH ]; intros g Hf.
  - exact Hf.
  - cbn [BatteryGuard.run fold_left]. apply IH.
    apply sample_keeps_false; assumption.
Qed.

Lemma cleared_flag_stays_cleared_witness :
  BatteryGuard.is_battery_ok
    (BatteryGuard.run 5 (BatteryGuard.init 0) [(0%Z, 1); (2%Z, 2); (0%Z, 9)]) = false
  /\ BatteryGuard._last_ok_time
       (BatteryGuard.run 5 (BatteryGuard.init 0) [(0%Z, 1); (2%Z, 2); (0%Z, 9)])
     = BatteryGuard._last_ok_time (BatteryGuard.init 0).
Proof.
  apply (cleared_flag_stays_cleared 5 (BatteryGuard.init 0)
           [(0%Z, 1); (2%Z, 2); (0%Z, 9)]).
  - reflexivity.
  - repeat constructor; discriminate.
Defined.

(** ** tadpole.py: the coordinator beyond standby *)

Lemma handle_step (w : Tadpole.t) (v : Z * Z) :
  Tadpole.at_pc w = Tadpole.AtHandle v ->
  exists l r ctrl,
    Tadpole.coordinator_step w
    = Tadpole.mk ctrl (Tadpole.xbox_pad w) (Tadpole.battery_guard w) Tadpole.AtCheck
        (Tadpole.calls w ++ [Tadpole.ChangeThrottle Tadpole.Left l;
                             Tadpole.ChangeThrottle Tadpole.Right r]).
Proof.
  intros P. unfold Tadpole.coordinator_step. rewrite P.
  destruct (shaped_throttles_ok (Tadpole.motor_ctrl w) v) as (thr & lm & rm & Hs & _).
  rewrite (handle_vector_input_ok _ _ _ _ Hs), Hs.
  do 3 eexists. reflexivity.
Qed.




Lemma sample_keeps_true (timeout : R) (g : BatteryGuard.t) (reading : Z) (now : R) :
  reading <> 0%Z ->
  BatteryGuard.is_battery_ok g = true ->
  BatteryGuard.is_battery_ok (BatteryGuard.sample timeout g reading now) = true.
Proof.
  intros NZ Ht. unfold BatteryGuard.sample.
  destruct (Z.eqb reading 1); [ reflexivity | ].
  destruct (Z.eqb_spec reading 0); [ contradiction | ]. exact Ht.
Qed.

Lemma driving_step (w : Tadpole.t) (a : Tadpole.action) :
  BatteryGuard.is_battery_ok (Tadpole.battery_guard w) = true ->
  driving (Tadpole.at_pc w) = true ->
  match a with Tadpole.Monitor reading _ => reading <> 0%Z | _ => True end ->
  BatteryGuard.is_battery_ok (Tadpole.battery_guard (Tadpole.step w a)) = true
  /\ driving (Tadpole.at_pc (Tadpole.step w a)) = true
  /\ exists changes,
      Tadpole.calls (Tadpole.step w a) = Tadpole.calls w ++ changes
      /\ forallb Tadpole.is_change changes = true.
Proof.
  intros Ht D Ha. destruct a as [ | reading now | ev ]; cbn [Tadpole.step].
  - destruct (Tadpole.at_pc w) as [ | | | | | v | e ] eqn:P; try discriminate.
    + unfold Tadpole.coordinator_step. rewrite P, Ht. cbn.
      repeat split; try assumption. exists []. now rewrite app_nil_r.
    + unfold Tadpole.coordinator_step. rewrite P.
      destruct (Gamepad.get_xy_vector_from_queue _ _) as [[[? | ] ?] | ]; cbn;
        rewrite ?P; repeat split; try assumption; exists []; now rewrite app_nil_r.
    + destruct (handle_step w v P) as (l & r & ctrl & E). rewrite E. cbn.
      repeat split; try assumption. eexists. split; reflexivity.
  - cbn. split; [ now apply sample_keeps_true | ].
    split; [ assumption | ]. exists []. now rewrite app_nil_r.
  - destruct (Gamepad.handle_event _ _); cbn;
      repeat split; try assumption; exists []; now rewrite app_nil_r.
Qed.

(** While the battery is fine the vehicle is never stopped by the
    coordinator: from a driving coordinator with the flag set, along every
    interleaving without a zero reading, the flag stays set, the coordinator
    never enters the standby branch, and every motor call it makes is a
    [change_throttle], never a [stop]. *)
Theorem driving_never_stops (w : Tadpole.t) (schedule : list Tadpole.action) :
  BatteryGuard.is_battery_ok (Tadpole.battery_guard w) = true ->
  driving (Tadpole.at_pc w) = true ->
  no_zero_reading schedule ->
  let w' := Tadpole.run w schedule in
  BatteryGuard.is_battery_ok (Tadpole.battery_guard w') = true
  /\ driving (Tadpole.at_pc w') = true
  /\ exists changes,
      Tadpole.calls w' = Tadpole.calls w ++ changes
      /\ forallb Tadpole.is_change changes = true.
Proof.
  cbv zeta. intros Ht D F. revert w Ht D.
  induction F as [ | a rest Ha _ IH ]; intros w Ht D.
  - repeat split; try assumption. exists []. now rewrite app_nil_r.
  - rewrite run_cons.
    destruct (driving_step w a Ht D Ha) as (Ht1 & D1 & c1 & E1 & C1).
    destruct (IH _ Ht1 D1) as (Ht2 & D2 & c2 & E2 & C2).
    repeat split; try assumption.
    exists (c1 ++ c2). rewrite E2, E1, <- app_assoc. split; [ reflexivity | ].
    rewrite forallb_app, C1, C2. reflexivity.
Qed.

Lemma driving_never_stops_witness :
  let w := Tadpole.mk MotorController.default
             (Gamepad.mk (-1) [(0%Z, (-32768)%Z)] [(2%Z, 0%Z); (5%Z, (-32768)%Z)]
                false true 1 1)
             (BatteryGuard.mk true 1 1) Tadpole.AtCheck [] in
  let w' := Tadpole.run w [Tadpole.Coordinator; Tadpole.Monitor 1 2;
                           Tadpole.Coordinator; Tadpole.Coordinator] in
  BatteryGuard.is_battery_ok (Tadpole.battery_guard w') = true
  /\ driving (Tadpole.at_pc w') = true
  /\ exists changes,
      Tadpole.calls w' = [] ++ changes /\ forallb Tadpole.is_change changes = true.
Proof.
  cbv zeta.
  apply (driving_never_stops
           (Tadpole.mk MotorController.default
              (Gamepad.mk (-1) [(0%Z, (-32768)%Z)] [(2%Z, 0%Z); (5%Z, (-32768)%Z)]
                 false true 1 1)
              (BatteryGuard.mk true 1 1) Tadpole.AtCheck [])).
  - reflexivity.
  - reflexivity.
  - repeat constructor; discriminate.
Defined.

(** A vector read inside the standby loop is dropped even when the battery
    has recovered in the meantime: from the blocking read, two steps of the
    coordinator take the oldest vector off the queue and make no motor call;
    with the flag set the coordinator then leaves the loop for the
    non-blocking read, so the vector that ended the wait is never applied. *)
Theorem standby_read_dropped_after_recovery
  (w : Tadpole.t) (v : Z * Z) (rest : list (Z * Z)) :
  Tadpole.at_pc w = Tadpole.AtStandbyGet ->
  Gamepad._xy_vector_queue (Tadpole.xbox_pad w) = v :: rest ->
  let w' := Tadpole.run w [Tadpole.Coordinator; Tadpole.Coordinator] in
  Tadpole.calls w' = Tadpole.calls w
  /\ Tadpole.motor_ctrl w' = Tadpole.motor_ctrl w
  /\ Gamepad._xy_vector_queue (Tadpole.xbox_pad w') = rest
  /\ Tadpole.at_pc w'
     = (if BatteryGuard.is_battery_ok (Tadpole.battery_guard w)
        then Tadpole.AtFetch else Tadpole.AtStandbyGet).
Proof.
  intros P Q. cbv zeta. rewrite !run_cons. cbn [Tadpole.run fold_left Tadpole.step].
  assert (E : Tadpole.coordinator_step w
              = Tadpole.mk (Tadpole.motor_ctrl w)
                  (Gamepad.mk (Gamepad.timeout_connection (Tadpole.xbox_pad w)) rest
                     (Gamepad.last_event_values (Tadpole.xbox_pad w))
                     (Gamepad.invert_x (Tadpole.xbox_pad w))
                     (Gamepad.invert_y (Tadpole.xbox_pad w))
                     (Gamepad.accept_every_nth_event (Tadpole.xbox_pad w))
                     (Gamepad.received_event_count (Tadpole.xbox_pad w)))
                  (Tadpole.battery_guard w) Tadpole.AtStandbyCheck (Tadpole.calls w)).
  { unfold Tadpole.coordinator_step, Gamepad.get_xy_vector_from_queue.
    rewrite P, Q. reflexivity. }
  rewrite E. unfold Tadpole.coordinator_step.
  cbn [Tadpole.at_pc Tadpole.battery_guard].
  destruct (BatteryGuard.is_battery_ok (Tadpole.battery_guard w)); cbn; repeat split.
Qed.

Lemma standby_read_dropped_after_recovery_witness :
  let w := Tadpole.mk MotorController.default
             (Gamepad.mk (-1) [(0%Z, (-32768)%Z)] [(2%Z, 0%Z); (5%Z, (-32768)%Z)]
                false true 1 1)
             (BatteryGuard.mk true 9 1) Tadpole.AtStandbyGet
             [Tadpole.Stop Tadpole.Left; Tadpole.Stop Tadpole.Right] in
  let w' := Tadpole.run w [Tadpole.Coordinator; Tadpole.Coordinator] in
  Tadpole.calls w' = [Tadpole.Stop Tadpole.Left; Tadpole.Stop Tadpole.Right]
  /\ Tadpole.motor_ctrl w' = MotorController.default
  /\ Gamepad._xy_vector_queue (Tadpole.xbox_pad w') = []
  /\ Tadpole.at_pc w' = Tadpole.AtFetch.
Proof.
  cbv zeta.
  exact (standby_read_dropped_after_recovery
           (Tadpole.mk MotorController.default
              (Gamepad.mk (-1) [(0%Z, (-32768)%Z)] [(2%Z, 0%Z); (5%Z, (-32768)%Z)]
                 false true 1 1)
              (BatteryGuard.mk true 9 1) Tadpole.AtStandbyGet
              [Tadpole.Stop Tadpole.Left; Tadpole.Stop Tadpole.Right])
           (0%Z, (-32768)%Z) [] eq_refl eq_refl).
Defined.
